(** * Spam-And-Phishing-Email-Detection: the orchestration of [main.py]

    A shallow embedding of the training driver [main] of the repository:
    the pandas operations it performs itself (label remapping, column drop,
    positional re-attachment of the cleaned CEAS_08 headers, null counting),
    its control flow (loading prelude, the [try] block, the fold loop, the
    top-level handler) and, for the collaborators of the package
    [spamandphishingdetection] whose code is not part of the sources, models
    written from the specification.  The views of the add-in server
    [flask_app.py] are embedded over the same run monad. *)

From Stdlib Require Import ZArith QArith Lia.
From stdpp Require Import base option list gmap strings.

Local Open Scope string_scope.
Local Open Scope list_scope.

(* ===================================================================== *)
(** ** Part I: definitions *)
(* ===================================================================== *)

(** *** Python exceptions and results *)

(** An exception is either an instance of a subclass of [Exception] (the
    class name and the message) or one that only derives from
    [BaseException] ([KeyboardInterrupt], [SystemExit]); the handler of
    [main], [except Exception as e], catches the former only. *)
Inductive Exn : Type :=
| Exception (cls : string) (msg : string)
| BaseException (cls : string).

Definition KeyError (key : string) : Exn := Exception "KeyError" key.
Definition ValueError (msg : string) : Exn := Exception "ValueError" msg.

Inductive Result (A : Type) : Type :=
| Ok (a : A)
| Raise (e : Exn).
Arguments Ok {A} a.
Arguments Raise {A} e.

Definition is_ok {A} (r : Result A) : bool :=
  match r with Ok _ => true | Raise _ => false end.

Definition result_bind {A B} (r : Result A) (k : A → Result B) : Result B :=
  match r with Ok a => k a | Raise e => Raise e end.

(** *** The pandas fragment used by [main] *)

Inductive Value : Type :=
| VInt (z : Z)
| VStr (s : string).

#[global] Instance Value_eq_dec : EqDecision Value.
Proof. solve_decision. Defined.

(** A cell is a value or null (NaN / None). *)
Abbreviation Cell := (option Value) (only parsing).

(** A data frame: its ordered column names and its rows, each carrying its
    pandas row label.  A row is a finite map from column names to cells; a
    declared column with no entry in a row reads as null, which is how an
    outer-aligned [pd.concat] pads. *)
Record DataFrame : Type := mkDF {
  columns : list string;
  rows : list (Z * gmap string Cell)
}.

Definition len (df : DataFrame) : nat := length (rows df).

Definition cell (r : gmap string Cell) (c : string) : Cell :=
  match r !! c with Some v => v | None => None end.

Definition isnull (r : gmap string Cell) (c : string) : bool :=
  match cell r c with None => true | Some _ => false end.

Definition labels (df : DataFrame) : list Z := (rows df).*1.

(** [df.reset_index(drop=True)]: the row labels are discarded and replaced by
    the positions 0 .. n-1. *)
Definition reset_index (df : DataFrame) : DataFrame :=
  mkDF (columns df) (imap (λ i lr, (Z.of_nat i, lr.2)) (rows df)).

Definition row_at (df : DataFrame) (l : Z) : option (gmap string Cell) :=
  (λ ir, ir.2.2) <$> list_find (λ lr, lr.1 = l) (rows df).

(** [pd.concat([a, b], axis=1)]: rows are aligned on their labels (outer
    join); a label missing on one side contributes no cell, so the columns of
    that side read as null.  Column names are the keys of a row, so a name
    present on both sides resolves to the left frame. *)
Definition concat_axis1 (a b : DataFrame) : DataFrame :=
  let ls := labels a ++ filter (λ l, l ∉ labels a) (labels b) in
  mkDF (columns a ++ columns b)
       (fmap (λ l, (l, default ∅ (row_at a l) ∪ default ∅ (row_at b l))) ls).

(** [pd.concat([a, b])]: rows of [b] appended below those of [a]. *)
Definition concat_axis0 (a b : DataFrame) : DataFrame :=
  mkDF (columns a ++ filter (λ c, c ∉ columns a) (columns b))
       (rows a ++ rows b).

(** [df.drop(columns=cs, inplace=True)]: a name that is not a column raises
    [KeyError]. *)
Definition drop_columns (cs : list string) (df : DataFrame) : Result DataFrame :=
  match list_find (λ c, c ∉ columns df) cs with
  | Some (_, c) => Raise (KeyError c)
  | None =>
      Ok (mkDF (filter (λ c, c ∉ cs) (columns df))
               (fmap (λ lr, (lr.1, filter (λ kv, kv.1 ∉ cs) lr.2)) (rows df)))
  end.

(** [df[(df['sender'].isnull()) | (df['receiver'].isnull())]]: selecting a
    column that does not exist raises [KeyError]; the rows that satisfy the
    mask are returned, the frame itself is left as it is. *)
Definition null_in (c1 c2 : string) (r : gmap string Cell) : bool :=
  isnull r c1 || isnull r c2.

Definition rows_with_null (c1 c2 : string) (df : DataFrame) : Result DataFrame :=
  if decide (c1 ∈ columns df) then
    if decide (c2 ∈ columns df) then
      Ok (mkDF (columns df) (filter (λ lr, null_in c1 c2 lr.2 = true) (rows df)))
    else Raise (KeyError c2)
  else Raise (KeyError c1).

(** [Series.map(d)] with a dict [d]: a value that is not a key of [d] (and a
    null) is mapped to null. *)
Fixpoint dict_get (d : list (Value * Value)) (v : Value) : Cell :=
  match d with
  | [] => None
  | (k, x) :: d' => if decide (k = v) then Some x else dict_get d' v
  end.

Definition series_map (d : list (Value * Value)) (c : Cell) : Cell :=
  match c with Some v => dict_get d v | None => None end.

(** [df[c] = df[c].map(d)]. *)
Definition map_column (c : string) (d : list (Value * Value)) (df : DataFrame)
  : Result DataFrame :=
  if decide (c ∈ columns df) then
    Ok (mkDF (columns df)
             (fmap (λ lr, (lr.1, <[c := series_map d (cell lr.2 c)]> lr.2)) (rows df)))
  else Raise (KeyError c).

(** The dict literal of [main], line 111: [{1: 0, 0: 1}]. *)
Definition label_scheme : list (Value * Value) :=
  [(VInt 1, VInt 0); (VInt 0, VInt 1)].

(** A label is binary when it is the integer 0 or 1. *)
Definition binary_label (c : Cell) : bool :=
  match c with
  | Some (VInt z) => bool_decide (z = 0%Z) || bool_decide (z = 1%Z)
  | _ => false
  end.

(** *** Observable events and the run monad *)

Inductive Level : Type := INFO | ERROR.

Definition newline : string := String (Ascii.ascii_of_nat 10) EmptyString.

(** The templates of the log records the properties below speak of; a value
    interpolated by the f-string is an argument of the record. *)
Definition missing_rows_message : string :=
  "Number of missing rows in Merged Cleaned Headers of CEAS_08 DataFrame: {len(missing_in_cleaned_ceas_header_merged)}".

Definition completed_message : string :=
  "Training and evaluation completed for all folds." +:+ newline.

Definition overall_accuracy_message : string :=
  "Overall Test Accuracy: {mean_test_accuracy * 100:.2f}%".

Definition error_message : string := "An error occurred: {e}".

(** The values interpolated into a log message. *)
Inductive Arg : Type :=
| AInt (z : Z)
| AStr (s : string)
| ACols (cs : list string)
| AExn (e : Exn)
| AMean (m : option Q).

(** What a run does, in order: log records, calls to collaborators (entered,
    and left when they return normally) and the appends to
    [fold_test_accuracies]. *)
Inductive Event : Type :=
| Log (lvl : Level) (msg : string) (args : list Arg)
| Enter (fn : string) (fold : option nat)
| Exit (fn : string) (fold : option nat)
| Append (fold : nat) (acc : Q).

Record Out (W A : Type) : Type := mkOut {
  world : W;
  events : list Event;
  result : Result A
}.
Arguments mkOut {W A} world events result.
Arguments world {W A} o.
Arguments events {W A} o.
Arguments result {W A} o.

(** A collaborator: it acts on the outside world (disk, network, random
    state) and returns or raises. *)
Definition Ext (W A : Type) : Type := W → W * Result A.

(** A computation of [main]: world passing, an event log and exceptions. *)
Definition M (W A : Type) : Type := W → Out W A.

#[global] Instance M_ret {W} : MRet (M W) :=
  λ A a w, mkOut w [] (Ok a).

#[global] Instance M_bind {W} : MBind (M W) :=
  λ A B k m w,
    let o := m w in
    match result o with
    | Ok a => let o' := k a (world o) in
              mkOut (world o') (events o ++ events o') (result o')
    | Raise e => mkOut (world o) (events o) (Raise e)
    end.

Definition raise {W A} (e : Exn) : M W A := λ w, mkOut w [] (Raise e).

Definition emit {W} (e : Event) : M W unit := λ w, mkOut w [e] (Ok tt).

Definition logging_info {W} (msg : string) (args : list Arg) : M W unit :=
  emit (Log INFO msg args).

Definition logging_error {W} (msg : string) (args : list Arg) : M W unit :=
  emit (Log ERROR msg args).

Definition lift {W A} (r : Result A) : M W A := λ w, mkOut w [] r.

(** A call to a collaborator, entered and, when it returns, left. *)
Definition call {W A} (fn : string) (fold : option nat) (f : Ext W A) : M W A :=
  λ w, match f w with
       | (w', Ok a) => mkOut w' [Enter fn fold; Exit fn fold] (Ok a)
       | (w', Raise e) => mkOut w' [Enter fn fold] (Raise e)
       end.

(** [try: body except Exception as e: handler e]. *)
Definition try_except {W A} (body : M W A) (handler : Exn → M W A) : M W A :=
  λ w,
    let o := body w in
    match result o with
    | Ok a => o
    | Raise (Exception cls msg) =>
        let o' := handler (Exception cls msg) (world o) in
        mkOut (world o') (events o ++ events o') (result o')
    | Raise (BaseException cls) => o
    end.

(** [d[k]] on a Python dict. *)
Definition getitem {W} (d : gmap string string) (k : string) : M W string :=
  match d !! k with
  | Some v => mret v
  | None => raise (KeyError k)
  end.

(** *** The values handed between the stages *)

Abbreviation Series := (list (option Value)) (only parsing).
Abbreviation Matrix := (list (list Q)) (only parsing).

(** One fold: [(X_train, X_test, y_train, y_test)]. *)
Definition Fold : Type := (DataFrame * DataFrame * Series * Series)%type.

(** The feature artifact of a fold:
    [(X_train_balanced, X_test_combined, y_train_balanced, y_test)]. *)
Definition Artifacts : Type := (Matrix * Matrix * Series * Series)%type.

Inductive Extractor : Type := BertExtractor (id : nat).
Inductive Model : Type := EnsembleModel (id : nat).

(** The estimators that [main] composes for every fold (lines 288-316). *)
Inductive Estimator : Type :=
| RareCategoryRemover (threshold : Q)
| SimpleImputer (strategy : string)
| OneHotEncoder (sparse_output : bool) (handle_unknown : string)
| StandardScaler.

Inductive Step : Type :=
| ColumnTransformer
    (transformers : list (string * list (string * Estimator) * list string))
    (remainder : string)
| BERTFeatureTransformer (feature_extractor : Extractor)
| SMOTE (random_state : Z).

Definition Pipeline : Type := list (string * Step).

Definition categorical_columns : list string := ["sender"; "receiver"].
Definition numerical_columns : list string :=
  ["https_count"; "http_count"; "blacklisted_keywords_count"; "urls";
   "short_urls"; "has_ip_address"].

Definition preprocessor : Step :=
  ColumnTransformer
    [("cat",
      [("rare_cat_remover", RareCategoryRemover (5 # 100));
       ("imputer", SimpleImputer "most_frequent");
       ("encoder", OneHotEncoder false "ignore")],
      categorical_columns);
     ("num",
      [("imputer", SimpleImputer "mean");
       ("scaler", StandardScaler)],
      numerical_columns)]
    "passthrough".

Definition pipeline (bert_extractor : Extractor) : Pipeline :=
  [("preprocessor", preprocessor);
   ("bert_features", BERTFeatureTransformer bert_extractor);
   ("smote", SMOTE 42)].

(** The allow-list of both header-feature merges (lines 208 and 219). *)
Definition select_columns : list string :=
  ["sender"; "receiver"; "https_count"; "http_count";
   "blacklisted_keywords_count"; "short_urls"; "has_ip_address"; "urls";
   "body"; "label"; "index"].

Definition common_columns : list string :=
  ["sender"; "receiver"; "https_count"; "http_count";
   "blacklisted_keywords_count"; "short_urls"; "has_ip_address"; "urls";
   "body"; "label"].

(** [np.mean]: the arithmetic mean, NaN (here [None]) on an empty list. *)
Definition np_mean (xs : list Q) : option Q :=
  match xs with
  | [] => None
  | _ => Some (foldr Qplus (0 # 1) xs / inject_Z (Z.of_nat (length xs)))%Q
  end.

(** *** The collaborators of [main]

    Everything [main] imports from [spamandphishingdetection], pandas'
    readers and writers, and the dataset loader.  [main] only sees what they
    return or raise.  Frames are values: a collaborator returns a frame of its
    own and leaves the frames it is given as they are. *)
Record Env (W : Type) : Type := mkEnv {
  load_config : string → Ext W (gmap string string);
  get_file_paths : gmap string string → Ext W (gmap string string);
  read_csv : string → Ext W DataFrame;
  (** [load_dataset(...)] followed by [.to_pandas()] *)
  load_dataset : string → Ext W DataFrame;
  (** [DatasetProcessor(df, column, name, path).process_dataset()] *)
  process_dataset : DataFrame → string → string → string → Ext W DataFrame;
  log_label_percentages : DataFrame → string → Ext W unit;
  check_missing_values : DataFrame → string → Ext W unit;
  feature_engineering :
    DataFrame → DataFrame → gmap string string → Ext W (DataFrame * DataFrame);
  load_or_save_emails : DataFrame → string → Ext W DataFrame;
  to_csv : DataFrame → string → Ext W unit;
  merge_dataframes :
    DataFrame → DataFrame → string → list (string * string) → list string →
    Ext W DataFrame;
  verify_merged_dataframe : DataFrame → DataFrame → string → string → Ext W unit;
  combine_dataframes : DataFrame → DataFrame → list string → Ext W DataFrame;
  verify_combined_dataframe : DataFrame → DataFrame → Ext W unit;
  save_combined_dataframe : DataFrame → string → Ext W unit;
  load_or_clean_data : string → DataFrame → string → string → Ext W DataFrame;
  combine_columns_for_cleaning : DataFrame → DataFrame → Ext W DataFrame;
  save_dataframe_to_csv : DataFrame → string → Ext W unit;
  generate_noisy_dataframe : DataFrame → string → Ext W DataFrame;
  stratified_k_fold_split : DataFrame → Ext W (list Fold);
  BERTFeatureExtractor : Ext W Extractor;
  run_pipeline_or_load :
    nat → DataFrame → DataFrame → Series → Series → Pipeline → string →
    Ext W Artifacts;
  get_model_path : gmap string string → nat → Ext W string;
  get_params_path : gmap string string → nat → Ext W string;
  model_training :
    Matrix → Series → Matrix → Series → string → string → Ext W (Model * Q);
  plot_learning_curve : Model → Matrix → Series → nat → Ext W unit
}.
Arguments load_config {W} e.
Arguments get_file_paths {W} e.
Arguments read_csv {W} e.
Arguments load_dataset {W} e.
Arguments process_dataset {W} e.
Arguments log_label_percentages {W} e.
Arguments check_missing_values {W} e.
Arguments feature_engineering {W} e.
Arguments load_or_save_emails {W} e.
Arguments to_csv {W} e.
Arguments merge_dataframes {W} e.
Arguments verify_merged_dataframe {W} e.
Arguments combine_dataframes {W} e.
Arguments verify_combined_dataframe {W} e.
Arguments save_combined_dataframe {W} e.
Arguments load_or_clean_data {W} e.
Arguments combine_columns_for_cleaning {W} e.
Arguments save_dataframe_to_csv {W} e.
Arguments generate_noisy_dataframe {W} e.
Arguments stratified_k_fold_split {W} e.
Arguments BERTFeatureExtractor {W} e.
Arguments run_pipeline_or_load {W} e.
Arguments get_model_path {W} e.
Arguments get_params_path {W} e.
Arguments model_training {W} e.
Arguments plot_learning_curve {W} e.

(** *** [main], stage by stage *)

Section Main.
Context {W : Type} (env : Env W).

(** Lines 94-102, before the [try]: configuration and the two raw datasets. *)
Definition load_inputs
  : M W (gmap string string * gmap string string * DataFrame * DataFrame) :=
  config ← call "load_config" None (load_config env "config.json");
  file_paths ← call "get_file_paths" None (get_file_paths env config);
  ceas_path ← getitem file_paths "ceas_08_dataset";
  df_ceas ← call "read_csv" None (read_csv env ceas_path);
  df_spamassassin ← call "load_dataset" None (load_dataset env "talby/spamassassin");
  mret (config, file_paths, df_ceas, df_spamassassin).

(** Lines 108-129. *)
Definition data_preprocessing (file_paths : gmap string string)
    (df_ceas df_spamassassin : DataFrame)
  : M W (DataFrame * DataFrame * DataFrame) :=
  logging_info "Beginning Data Preprocessing..." [];;
  df_spamassassin ← lift (map_column "label" label_scheme df_spamassassin);
  spam_path ← getitem file_paths "preprocessed_spam_assassin_file";
  df_processed_spamassassin ←
    call "process_dataset" None
      (process_dataset env df_spamassassin "text" "spam_assassin" spam_path);
  ceas_path ← getitem file_paths "preprocessed_ceas_file";
  df_processed_ceas ←
    call "process_dataset" None (process_dataset env df_ceas "body" "ceas_08" ceas_path);
  let combined_percentage_df :=
    concat_axis0 df_processed_spamassassin df_processed_ceas in
  call "log_label_percentages" None
    (log_label_percentages env df_processed_ceas "CEAS_08");;
  call "log_label_percentages" None
    (log_label_percentages env df_processed_spamassassin "SpamAssassin");;
  call "log_label_percentages" None
    (log_label_percentages env combined_percentage_df
       "Combined CEAS_08 and SpamAssassin (No Processing)");;
  call "check_missing_values" None
    (check_missing_values env combined_percentage_df
       "Combined CEAS_08 and SpamAssassin (No Processing)");;
  logging_info ("Data Preprocessing completed." +:+ newline) [];;
  mret (df_processed_spamassassin, df_processed_ceas, combined_percentage_df).

Definition rows_mismatch : string :=
  "The number of rows in the Merged Cleaned Headers of CEAS_08 DataFrame does not match Processed CEAS_08.".

(** Lines 149-195: the cleaned sender/receiver headers are put back next to
    the processed CEAS_08 frame.  Returns the frame [df_processed_ceas] as
    the in-place [drop] leaves it, and the merged frame. *)
Definition merge_cleaned_headers (file_paths : gmap string string)
    (df_cleaned_ceas_headers df_processed_ceas : DataFrame)
  : M W (DataFrame * DataFrame) :=
  logging_info
    "Beginning merging of Cleaned Headers of CEAS_08 with Processed CEAS_08..." [];;
  '(df_processed_ceas, df_cleaned_ceas_headers_merge) ←
    (if decide (len df_cleaned_ceas_headers ≠ len df_processed_ceas) then
       logging_error rows_mismatch [];;
       raise (ValueError rows_mismatch)
     else
       df_processed_ceas ← lift (drop_columns ["sender"; "receiver"] df_processed_ceas);
       logging_info "Columns in df_cleaned_ceas_headers: {df_cleaned_ceas_headers.columns.tolist()}"
         [ACols (columns df_cleaned_ceas_headers)];;
       logging_info "Columns in df_processed_ceas: {df_processed_ceas.columns.tolist()}"
         [ACols (columns df_processed_ceas)];;
       let df_cleaned_ceas_headers_merge :=
         concat_axis1 (reset_index df_cleaned_ceas_headers)
                      (reset_index df_processed_ceas) in
       missing_in_cleaned_ceas_header_merged ←
         lift (rows_with_null "sender" "receiver" df_cleaned_ceas_headers_merge);
       logging_info
         missing_rows_message
         [AInt (Z.of_nat (len missing_in_cleaned_ceas_header_merged))];;
       logging_info "Total rows in Processed CEAS_08 Dataframe: {len(df_processed_ceas)}"
         [AInt (Z.of_nat (len df_processed_ceas))];;
       logging_info
         "Total rows in Merged Cleaned Headers of CEAS_08 Dataframe: {len(df_cleaned_ceas_headers_merge)}"
         [AInt (Z.of_nat (len df_cleaned_ceas_headers_merge))];;
       mret (df_processed_ceas, df_cleaned_ceas_headers_merge));
  (if decide (len df_cleaned_ceas_headers_merge ≠ len df_processed_ceas) then
     logging_error rows_mismatch [];;
     raise (ValueError (rows_mismatch +:+ newline))
   else
     logging_info
       "The number of rows in the Merged Cleaned Headers of CEAS_08 DataFrame matches Processed CEAS_08."
       [];;
     path ← getitem file_paths "merged_cleaned_ceas_headers";
     call "to_csv" None (to_csv env df_cleaned_ceas_headers_merge path);;
     path ← getitem file_paths "merged_cleaned_ceas_headers";
     logging_info
       "Merged Cleaned Headers of CEAS_08 DataFrame successfully saved to {file_paths['merged_cleaned_ceas_headers']}"
       [AStr path]);;
  logging_info
    ("Data Cleaning of CEAS_08 ['sender', 'receiver'] completed." +:+ newline) [];;
  mret (df_processed_ceas, df_cleaned_ceas_headers_merge).

(** Lines 200-234. *)
Definition data_integration (file_paths : gmap string string)
    (df_processed_spamassassin spamassassin_headers_df
     df_cleaned_ceas_headers_merge ceas_headers_df combined_percentage_df : DataFrame)
  : M W DataFrame :=
  logging_info "Beginning Data Integration..." [];;
  logging_info
    "Merging Processed Spam Assassin and Spam Assassin Header Dataframes..." [];;
  merged_spamassassin_df ←
    call "merge_dataframes" None
      (merge_dataframes env df_processed_spamassassin spamassassin_headers_df
         "index" [("text", "body")] select_columns);
  path ← getitem file_paths "merged_spam_assassin_file";
  call "verify_merged_dataframe" None
    (verify_merged_dataframe env merged_spamassassin_df df_processed_spamassassin
       "Spam Assassin" path);;
  logging_info "Merging Processed CEAS_08 and CEAS_08 Header Dataframes..." [];;
  merged_ceas_df ←
    call "merge_dataframes" None
      (merge_dataframes env df_cleaned_ceas_headers_merge ceas_headers_df
         "index" [] select_columns);
  path ← getitem file_paths "merged_ceas_file";
  call "verify_merged_dataframe" None
    (verify_merged_dataframe env merged_ceas_df df_cleaned_ceas_headers_merge
       "CEAS_08" path);;
  logging_info "Merging Spam Assassin and CEAS_08 Dataframes..." [];;
  combined_df ←
    call "combine_dataframes" None
      (combine_dataframes env merged_spamassassin_df merged_ceas_df common_columns);
  call "verify_combined_dataframe" None
    (verify_combined_dataframe env combined_df combined_percentage_df);;
  path ← getitem file_paths "merged_data_frame";
  call "save_combined_dataframe" None (save_combined_dataframe env combined_df path);;
  logging_info ("Data Integration completed." +:+ newline) [];;
  mret combined_df.

(** Lines 239-267: body cleaning, noise injection and the split. *)
Definition clean_noise_split (file_paths : gmap string string)
    (combined_df : DataFrame) : M W (list Fold) :=
  logging_info "Beginning Data Cleaning ['body']..." [];;
  df_clean_body ←
    call "load_or_clean_data" None
      (load_or_clean_data env "Merged Dataframe" combined_df "body"
         "data_cleaning/cleaned_data_frame.csv");
  df_cleaned_combined ←
    call "combine_columns_for_cleaning" None
      (combine_columns_for_cleaning env combined_df df_clean_body);
  call "verify_combined_dataframe" None
    (verify_combined_dataframe env combined_df df_cleaned_combined);;
  path ← getitem file_paths "merged_cleaned_data_frame";
  call "save_dataframe_to_csv" None
    (save_dataframe_to_csv env df_cleaned_combined path);;
  logging_info "Beginning Noise Injection..." [];;
  noisy_df ←
    call "generate_noisy_dataframe" None
      (generate_noisy_dataframe env df_cleaned_combined
         "noise_injection/noisy_data_frame.csv");
  logging_info ("Noise Injection completed." +:+ newline) [];;
  logging_info "Beginning Data Splitting..." [];;
  folds ← call "stratified_k_fold_split" None (stratified_k_fold_split env noisy_df);
  logging_info ("Data Splitting completed." +:+ newline) [];;
  mret folds.

(** One learning-curve entry:
    [(X_train_balanced, y_train_balanced, ensemble_model, fold_idx)]. *)
Definition Curve : Type := (Matrix * Series * Model * nat)%type.

(** Lines 358-366: every entry collected so far is plotted again. *)
Fixpoint plot_learning_curves (learning_curve_data : list Curve) : M W unit :=
  match learning_curve_data with
  | [] => mret tt
  | (X_train, y_train, ensemble_model, fold_idx) :: rest =>
      call "plot_learning_curve" (Some fold_idx)
        (plot_learning_curve env ensemble_model X_train y_train fold_idx);;
      plot_learning_curves rest
  end.

(** Lines 274-366: the body of the loop over the folds, on the two
    accumulators [fold_test_accuracies] and [learning_curve_data]. *)
Definition fold_body (config : gmap string string) (fold_idx : nat) (fold : Fold)
    (fold_test_accuracies : list Q) (learning_curve_data : list Curve)
  : M W (list Q * list Curve) :=
  let '(X_train, X_test, y_train, y_test) := fold in
  logging_info "Beginning Feature Extraction for Fold {fold_idx}..." [AInt (Z.of_nat fold_idx)];;
  bert_extractor ← call "BERTFeatureExtractor" (Some fold_idx) (BERTFeatureExtractor env);
  '(X_train_balanced, X_test_combined, y_train_balanced, y_test) ←
    call "run_pipeline_or_load" (Some fold_idx)
      (run_pipeline_or_load env fold_idx X_train X_test y_train y_test
         (pipeline bert_extractor) "feature_extraction");
  logging_info
    ("Data for Fold {fold_idx} has been processed or loaded successfully."
       +:+ newline)
    [AInt (Z.of_nat fold_idx)];;
  logging_info "Beginning Model Training and Evaluation for Fold {fold_idx}..."
    [AInt (Z.of_nat fold_idx)];;
  model_path ← call "get_model_path" (Some fold_idx) (get_model_path env config fold_idx);
  params_path ← call "get_params_path" (Some fold_idx) (get_params_path env config fold_idx);
  '(ensemble_model, test_accuracy) ←
    call "model_training" (Some fold_idx)
      (model_training env X_train_balanced y_train_balanced X_test_combined y_test
         model_path params_path);
  emit (Append fold_idx test_accuracy);;
  let fold_test_accuracies := fold_test_accuracies ++ [test_accuracy] in
  logging_info
    ("Data for Fold {fold_idx} has been processed, model trained, and evaluated."
       +:+ newline)
    [AInt (Z.of_nat fold_idx)];;
  let learning_curve_data :=
    learning_curve_data ++
      [(X_train_balanced, y_train_balanced, ensemble_model, fold_idx)] in
  plot_learning_curves learning_curve_data;;
  mret (fold_test_accuracies, learning_curve_data).

(** [for fold_idx, fold in enumerate(folds, start=...)]. *)
Fixpoint fold_loop (config : gmap string string) (fold_idx : nat) (folds : list Fold)
    (fold_test_accuracies : list Q) (learning_curve_data : list Curve)
  : M W (list Q * list Curve) :=
  match folds with
  | [] => mret (fold_test_accuracies, learning_curve_data)
  | fold :: rest =>
      '(fold_test_accuracies, learning_curve_data) ←
        fold_body config fold_idx fold fold_test_accuracies learning_curve_data;
      fold_loop config (S fold_idx) rest fold_test_accuracies learning_curve_data
  end.

(** Lines 105-267: the stages of the [try] that come before the loop. *)
Definition before_loop (file_paths : gmap string string)
    (df_ceas df_spamassassin : DataFrame) : M W (list Fold) :=
  '(df_processed_spamassassin, df_processed_ceas, combined_percentage_df) ←
    data_preprocessing file_paths df_ceas df_spamassassin;
  logging_info "Beginning Feature Engineering..." [];;
  '(spamassassin_headers_df, ceas_headers_df) ←
    call "feature_engineering" None
      (feature_engineering env df_processed_spamassassin df_processed_ceas file_paths);
  logging_info "Beginning Data Cleaning of CEAS_08 ['sender', 'receiver']..." [];;
  path ← getitem file_paths "cleaned_ceas_headers";
  df_cleaned_ceas_headers ←
    call "load_or_save_emails" None (load_or_save_emails env df_processed_ceas path);
  '(df_processed_ceas, df_cleaned_ceas_headers_merge) ←
    merge_cleaned_headers file_paths df_cleaned_ceas_headers df_processed_ceas;
  combined_df ←
    data_integration file_paths df_processed_spamassassin spamassassin_headers_df
      df_cleaned_ceas_headers_merge ceas_headers_df combined_percentage_df;
  clean_noise_split file_paths combined_df.

(** Lines 368-371: the overall accuracy. *)
Definition after_loop (fold_test_accuracies : list Q) : M W unit :=
  logging_info completed_message [];;
  logging_info overall_accuracy_message [AMean (np_mean fold_test_accuracies)].

(** Lines 105-371: the body of the [try]. *)
Definition try_body (config file_paths : gmap string string)
    (df_ceas df_spamassassin : DataFrame) : M W unit :=
  folds ← before_loop file_paths df_ceas df_spamassassin;
  '(fold_test_accuracies, _) ← fold_loop config 1 folds [] [];
  after_loop fold_test_accuracies.

(** Lines 373-375: [except Exception as e: logging.error(...); return]. *)
Definition handler (e : Exn) : M W unit :=
  logging_error error_message [AExn e].

Definition main : M W unit :=
  '(config, file_paths, df_ceas, df_spamassassin) ← load_inputs;
  try_except (try_body config file_paths df_ceas df_spamassassin) handler.

End Main.

(** *** The outside world of the reference collaborators *)

(** The four files of a fold's feature artifact. *)
Inductive Slot : Type :=
| X_train_balanced_file
| X_test_combined_file
| y_train_balanced_file
| y_test_file.

#[global] Instance Slot_eq_dec : EqDecision Slot.
Proof. solve_decision. Defined.

Definition Slot_to_nat (s : Slot) : nat :=
  match s with
  | X_train_balanced_file => 0
  | X_test_combined_file => 1
  | y_train_balanced_file => 2
  | y_test_file => 3
  end.

Definition Slot_of_nat (n : nat) : Slot :=
  match n with
  | 0 => X_train_balanced_file
  | 1 => X_test_combined_file
  | 2 => y_train_balanced_file
  | _ => y_test_file
  end.

#[global] Instance Slot_countable : Countable Slot :=
  inj_countable' Slot_to_nat Slot_of_nat
    (λ s, match s with
          | X_train_balanced_file | X_test_combined_file
          | y_train_balanced_file | y_test_file => eq_refl
          end).

(** What a file holds. *)
Inductive Blob : Type :=
| BMatrix (m : Matrix)
| BSeries (y : Series)
| BFrame (df : DataFrame).

(** The expensive work of the feature-extraction pipeline. *)
Inductive Work : Type :=
| EmbeddingExtraction (fold_idx : nat)
| Oversampling (fold_idx : nat).

(** The disk: the per-fold artifact files, addressed by cache directory, fold
    index and slot, and the CSV files addressed by path; and a record of the
    expensive work done so far. *)
Record Store : Type := mkStore {
  artifacts : gmap (string * nat * Slot) Blob;
  csv_files : gmap string DataFrame;
  work : list Work
}.

Definition as_matrix (b : Blob) : option Matrix :=
  match b with BMatrix m => Some m | _ => None end.

Definition as_series (b : Blob) : option Series :=
  match b with BSeries y => Some y | _ => None end.

(** *** The feature-extraction pipeline of a fold *)

Definition count_label (l : Z) (y : Series) : nat :=
  length (filter (λ c, c = Some (VInt l)) y).

(** The rows of class [l]. *)
Fixpoint class_rows (l : Z) (X : Matrix) (y : Series) : Matrix :=
  match X, y with
  | x :: X', c :: y' =>
      if decide (c = Some (VInt l)) then x :: class_rows l X' y'
      else class_rows l X' y'
  | _, _ => []
  end.

Definition sqdist (a b : list Q) : Q :=
  foldr Qplus (0 # 1)%Q (zip_with (λ x y, (x - y) * (x - y))%Q a b).

(** The vector of [candidates] nearest to [x], [best] if there is none
    nearer. *)
Fixpoint nearest (x : list Q) (best : list Q) (candidates : Matrix) : list Q :=
  match candidates with
  | [] => best
  | c :: cs =>
      if Qle_bool (sqdist x best) (sqdist x c) then nearest x best cs
      else nearest x c cs
  end.

(** [x + lam * (nb - x)], coordinate by coordinate. *)
Definition interpolate (lam : Q) (x nb : list Q) : list Q :=
  zip_with (λ a b, a + lam * (b - a))%Q x nb.

(** The pseudo-random sequence drawn from [random_state]. *)
Definition next_random (s : Z) : Z :=
  ((1103515245 * s + 12345) mod 2147483648)%Z.

(** [n] synthetic vectors of the minority class [ms]: each lies between a
    drawn minority vector and its nearest minority neighbour. *)
Fixpoint synthesize (n : nat) (ms : Matrix) (s : Z) : Matrix :=
  match n with
  | O => []
  | S n' =>
      let s1 := next_random s in
      let s2 := next_random s1 in
      let i := Z.to_nat (s1 mod Z.of_nat (length ms))%Z in
      let x := nth i ms [] in
      let others := take i ms ++ drop (S i) ms in
      let nb := nearest x (nth 0 others x) others in
      interpolate ((s2 mod 1000)%Z # 1000) x nb :: synthesize n' ms s2
  end.

(** Modelled from the spec: the body of [SMOTE.fit_resample], which is
    imbalanced-learn's and not part of the sources.  Section 4.3:
    "synthetic minority oversampling generates synthetic minority-class
    feature vectors (via interpolation between nearest same-class neighbors
    in feature space) until both classes are equal".  A minority class with
    fewer than two vectors has no same-class neighbour to interpolate with,
    and the step fails. *)
Definition smote (random_state : Z) (X : Matrix) (y : Series)
  : Result (Matrix * Series) :=
  if decide (length X ≠ length y) then
    Raise (ValueError "Found input variables with inconsistent numbers of samples")
  else
    let n0 := count_label 0 y in
    let n1 := count_label 1 y in
    if decide (n0 = n1) then Ok (X, y)
    else
      let minority := if decide (n0 < n1) then 0%Z else 1%Z in
      let deficit := if decide (n0 < n1) then n1 - n0 else n0 - n1 in
      let ms := class_rows minority X y in
      if decide (length ms < 2) then
        Raise (ValueError "the minority class has no same-class neighbour")
      else
        Ok (X ++ synthesize deficit ms random_state,
            y ++ replicate deficit (Some (VInt minority))).

(** [pipeline.named_steps[name]]. *)
Fixpoint named_step (name : string) (p : Pipeline) : Result Step :=
  match p with
  | [] => Raise (KeyError name)
  | (n, st) :: p' => if decide (n = name) then Ok st else named_step name p'
  end.

Section FeatureExtraction.
(** The fitted state of the column transformer (learned categories,
    imputation values, scaler mean and variance), how it is learned from a
    training frame, how it maps one row to its numeric features, and the
    frozen language model mapping a text to its embedding.  Their arithmetic
    is scikit-learn's and the language model's. *)
Context {Fitted : Type}.
Variable fit_columns : Step → DataFrame → Fitted.
Variable transform_row : Fitted → gmap string Cell → list Q.
Variable embed : Extractor → Cell → list Q.

Definition text_column : string := "cleaned_text".

Definition combined_features (fitted : Fitted) (ex : Extractor) (X : DataFrame)
  : Matrix :=
  fmap (λ lr, transform_row fitted lr.2 ++ embed ex (cell lr.2 text_column)) (rows X).

(** Modelled from the spec: the running of the feature-extraction pipeline,
    which happens inside [run_pipeline_or_load] and is not part of the
    sources.  Section 4.3: the column-wise stage is fitted on the training
    split only and applied to both splits, its output is concatenated with
    the embedding of the cleaned text, and the training split alone is
    rebalanced. *)
Definition feature_extraction_pipeline (p : Pipeline)
    (X_train X_test : DataFrame) (y_train y_test : Series) : Result Artifacts :=
  result_bind (named_step "preprocessor" p) (λ pre,
  result_bind (named_step "bert_features" p) (λ bert,
  result_bind (named_step "smote" p) (λ sm,
    match bert, sm with
    | BERTFeatureTransformer ex, SMOTE random_state =>
        let fitted := fit_columns pre X_train in
        let X_train_combined := combined_features fitted ex X_train in
        let X_test_combined := combined_features fitted ex X_test in
        result_bind (smote random_state X_train_combined y_train)
          (λ '(X_train_balanced, y_train_balanced),
             Ok (X_train_balanced, X_test_combined, y_train_balanced, y_test))
    | _, _ => Raise (Exception "TypeError" "unexpected pipeline step")
    end))).

Definition load_artifacts (st : Store) (dir : string) (fold_idx : nat)
  : option Artifacts :=
  X_train_balanced ← artifacts st !! (dir, fold_idx, X_train_balanced_file) ≫= as_matrix;
  X_test_combined ← artifacts st !! (dir, fold_idx, X_test_combined_file) ≫= as_matrix;
  y_train_balanced ← artifacts st !! (dir, fold_idx, y_train_balanced_file) ≫= as_series;
  y_test ← artifacts st !! (dir, fold_idx, y_test_file) ≫= as_series;
  Some (X_train_balanced, X_test_combined, y_train_balanced, y_test).

Definition save_artifacts (dir : string) (fold_idx : nat) (a : Artifacts)
    (files : gmap (string * nat * Slot) Blob) : gmap (string * nat * Slot) Blob :=
  let '(X_train_balanced, X_test_combined, y_train_balanced, y_test) := a in
  <[(dir, fold_idx, y_test_file) := BSeries y_test]>
  (<[(dir, fold_idx, y_train_balanced_file) := BSeries y_train_balanced]>
  (<[(dir, fold_idx, X_test_combined_file) := BMatrix X_test_combined]>
  (<[(dir, fold_idx, X_train_balanced_file) := BMatrix X_train_balanced]> files))).

(** Modelled from the spec: [run_pipeline_or_load], of the package
    [spamandphishingdetection], is not part of the sources.  Section 4.4:
    "compute a cache key from fold_idx and cache_dir; if all four artifact
    files exist at that key, load and return them, bypassing the (expensive)
    pipeline entirely; otherwise run the full Feature Extraction Pipeline,
    persist each of the four outputs individually, and return them."  A file
    that does not hold an array of the expected kind counts as absent
    (section 7, missing-cache errors). *)
Definition run_pipeline_or_load_model (fold_idx : nat)
    (X_train X_test : DataFrame) (y_train y_test : Series) (p : Pipeline)
    (dir : string) : Ext Store Artifacts :=
  λ st,
    match load_artifacts st dir fold_idx with
    | Some a => (st, Ok a)
    | None =>
        let work_done := work st ++ [EmbeddingExtraction fold_idx; Oversampling fold_idx] in
        match feature_extraction_pipeline p X_train X_test y_train y_test with
        | Ok a =>
            (mkStore (save_artifacts dir fold_idx a (artifacts st)) (csv_files st) work_done,
             Ok a)
        | Raise e => (mkStore (artifacts st) (csv_files st) work_done, Raise e)
        end
    end.

End FeatureExtraction.

(** *** Merge and verification *)

Definition rename_column (rename_columns : list (string * string)) (c : string)
  : string :=
  match list_find (λ kv, kv.1 = c) rename_columns with
  | Some (_, kv) => kv.2
  | None => c
  end.

Definition rename_row (rename_columns : list (string * string))
    (r : gmap string Cell) : gmap string Cell :=
  list_to_map (fmap (λ kv, (rename_column rename_columns kv.1, kv.2)) (map_to_list r)).

(** The feature rows that carry the key of a base row. *)
Definition matching_rows (on_column : string) (feature : DataFrame)
    (br : gmap string Cell) : list (Z * gmap string Cell) :=
  filter (λ fr, cell fr.2 on_column = cell br on_column) (rows feature).

(** The rows of the join: every base row, in order, next to the one feature
    row that carries its key.  The join is total or it fails: a base row with
    no feature row, or with more than one, raises. *)
Fixpoint join_rows (on_column : string) (feature : DataFrame)
    (base_rows : list (Z * gmap string Cell)) : Result (list (gmap string Cell)) :=
  match base_rows with
  | [] => Ok []
  | br :: rest =>
      match matching_rows on_column feature br.2 with
      | [fr] =>
          result_bind (join_rows on_column feature rest)
            (λ joined, Ok ((br.2 ∪ fr.2) :: joined))
      | [] => Raise (ValueError "a record has no header-feature row")
      | _ => Raise (ValueError "a record has more than one header-feature row")
      end
  end.

(** The columns a merge keeps: the allow-list and the join key. *)
Definition kept_columns (on_column : string) (select : list string) : list string :=
  if decide (on_column ∈ select) then select else select ++ [on_column].

(** Modelled from the spec: [merge_dataframes], of the package
    [spamandphishingdetection], is not part of the sources.  Section 4.1:
    the two tables are joined on the index column, columns are renamed by the
    optional rename map, the output columns are those of the allow-list, and
    "output row count equals the base table's row count"; section 3: there
    is "exactly one row per source Record; join must be total (no missing
    index) or the merge fails loudly"; section 8: the merged column set is
    the allow-list together with the join key.  A key or an allow-listed
    column that does not exist raises, as a pandas selection does. *)
Definition merge_dataframes_model (base feature : DataFrame) (on_column : string)
    (rename_columns : list (string * string)) (select : list string)
  : Result DataFrame :=
  if decide (on_column ∈ columns base) then
    if decide (on_column ∈ columns feature) then
      let joined_columns :=
        columns base ++ filter (λ c, c ∉ columns base) (columns feature) in
      let renamed := fmap (rename_column rename_columns) joined_columns in
      let keep := kept_columns on_column select in
      match list_find (λ c, c ∉ renamed) keep with
      | Some (_, c) => Raise (KeyError c)
      | None =>
          result_bind (join_rows on_column feature (rows base))
            (λ joined,
               Ok (mkDF keep
                     (imap (λ i r, (Z.of_nat i,
                                    filter (λ kv, kv.1 ∈ keep)
                                           (rename_row rename_columns r)))
                           joined)))
      end
    else Raise (KeyError on_column)
  else Raise (KeyError on_column).


Definition write_csv (path : string) (df : DataFrame) (st : Store) : Store :=
  mkStore (artifacts st) (<[path := df]> (csv_files st)) (work st).


(** *** The dataset normalizer *)


(** *** The stratified split *)

(** A shuffle driven by the pseudo-random sequence: each element is inserted
    at a drawn position of the shuffled rest. *)
Fixpoint shuffle {A} (s : Z) (l : list A) : list A :=
  match l with
  | [] => []
  | x :: l' =>
      let s' := next_random s in
      let r := shuffle s' l' in
      let i := Z.to_nat (s' mod Z.of_nat (S (length r)))%Z in
      take i r ++ x :: drop i r
  end.

(** Records are dealt to the [k] groups class by class and in turn: the
    [j]-th record seen of a class goes to group [j mod k]. *)
Fixpoint deal (k : nat) (order : list (nat * Cell)) (seen : Series)
  : list (nat * nat) :=
  match order with
  | [] => []
  | (p, c) :: rest =>
      (p, length (filter (λ c', c' = c) seen) mod k) :: deal k rest (c :: seen)
  end.

Definition label_at (df : DataFrame) (p : nat) : Cell :=
  match rows df !! p with
  | Some lr => cell lr.2 "label"
  | None => None
  end.

(** The positions of the frame in shuffled order, and each with the group it
    is dealt to. *)
Definition shuffled_positions (random_state : Z) (df : DataFrame) : list nat :=
  shuffle random_state (seq 0 (len df)).

Definition dealt_positions (k : nat) (random_state : Z) (df : DataFrame)
  : list (nat * nat) :=
  deal k ((λ p, (p, label_at df p)) <$> shuffled_positions random_state df) [].

(** The positions held out by each of the [k] groups. *)
Definition test_groups (k : nat) (random_state : Z) (df : DataFrame)
  : list (list nat) :=
  fmap (λ g, (filter (λ pg, pg.2 = g) (dealt_positions k random_state df)).*1)
       (seq 0 k).

(** How many records of class [c] a group holds. *)
Definition class_in_group (df : DataFrame) (c : Cell) (g : list nat) : nat :=
  length (filter (λ p, label_at df p = c) g).

Definition take_rows (df : DataFrame) (ps : list nat) : DataFrame :=
  mkDF (columns df) (omap (λ p, rows df !! p) ps).

Definition label_series (df : DataFrame) : Series :=
  fmap (λ lr, cell lr.2 "label") (rows df).

(** Modelled from the spec: [stratified_k_fold_split], of the package
    [spamandphishingdetection], is not part of the sources.  Section 4.2:
    "partition indices into k groups such that each group preserves (within
    rounding) the global class ratio; for fold i, group i is held out as
    test, the remaining k-1 groups concatenated as train", deterministic for
    a fixed random seed. *)
Definition stratified_k_fold_split_model (k : nat) (random_state : Z)
    (df : DataFrame) : list Fold :=
  let groups := test_groups k random_state df in
  imap (λ i g,
          let X_train := take_rows df (mjoin (take i groups ++ drop (S i) groups)) in
          let X_test := take_rows df g in
          (X_train, X_test, label_series X_train, label_series X_test))
       groups.

(** *** A small concrete world

    Two four-row datasets and simple collaborators, on which the whole of
    [main] can be run. *)

Definition make_frame (cols : list string) (data : list (list Cell)) : DataFrame :=
  mkDF cols (imap (λ i cells, (Z.of_nat i, list_to_map (zip cols cells))) data).

Definition S_ (s : string) : Cell := Some (VStr s).
Definition I_ (z : Z) : Cell := Some (VInt z).

Definition toy_ceas : DataFrame :=
  make_frame ["sender"; "receiver"; "date"; "subject"; "body"; "label"; "urls"]
    [ [S_ "ann@a.org"; S_ "bob@b.org"; S_ "d1"; S_ "hi"; S_ "lunch today"; I_ 0; I_ 0];
      [S_ "win@c.biz"; None; S_ "d2"; S_ "prize"; S_ "click http://c.biz"; I_ 1; I_ 1];
      [S_ "cat@a.org"; S_ "dan@b.org"; S_ "d3"; S_ "notes"; S_ "see attached"; I_ 0; I_ 0];
      [None; S_ "eve@b.org"; S_ "d4"; S_ "bank"; S_ "verify account"; I_ 1; I_ 1] ].

(** SpamAssassin labels use the opposite scheme: 1 is legitimate. *)
Definition toy_spamassassin : DataFrame :=
  make_frame ["label"; "group"; "text"]
    [ [I_ 1; S_ "easy_ham"; S_ "meeting notes"];
      [I_ 0; S_ "spam"; S_ "cheap pills"];
      [I_ 1; S_ "hard_ham"; S_ "invoice attached"];
      [I_ 0; S_ "spam_2"; S_ "you won"] ].

Definition toy_file_paths : gmap string string :=
  list_to_map
    [("ceas_08_dataset", "data/CEAS_08.csv");
     ("preprocessed_spam_assassin_file", "out/pre_spam.csv");
     ("preprocessed_ceas_file", "out/pre_ceas.csv");
     ("cleaned_ceas_headers", "out/cleaned_headers.csv");
     ("merged_cleaned_ceas_headers", "out/merged_cleaned_headers.csv");
     ("merged_spam_assassin_file", "out/merged_spam.csv");
     ("merged_ceas_file", "out/merged_ceas.csv");
     ("merged_data_frame", "out/merged.csv");
     ("merged_cleaned_data_frame", "out/merged_cleaned.csv")].

Definition pure_ext {W A} (a : A) : Ext W A := λ w, (w, Ok a).

(** The processor gives every record its index within its dataset. *)
Definition with_index (df : DataFrame) : DataFrame :=
  mkDF (columns df ++ ["index"])
       (imap (λ i lr, (lr.1, <["index" := I_ (Z.of_nat i)]> lr.2)) (rows df)).

Definition header_columns : list string :=
  ["https_count"; "http_count"; "blacklisted_keywords_count"; "short_urls";
   "has_ip_address"].

Definition toy_headers (extra : list (string * Cell)) (df : DataFrame) : DataFrame :=
  mkDF ("index" :: header_columns ++ extra.*1)
       (fmap (λ lr, (lr.1,
                    list_to_map (("index", cell lr.2 "index")
                                 :: fmap (λ c, (c, I_ 0)) header_columns ++ extra)))
            (rows df)).

Definition project (cols : list string) (df : DataFrame) : DataFrame :=
  mkDF cols (fmap (λ lr, (lr.1, filter (λ kv, kv.1 ∈ cols) lr.2)) (rows df)).

Definition toy_clean_body (column : string) (df : DataFrame) : DataFrame :=
  mkDF ["cleaned_text"]
       (fmap (λ lr, (lr.1, {[ "cleaned_text" := cell lr.2 column ]})) (rows df)).

Definition toy_transform_row (_ : unit) (r : gmap string Cell) : list Q :=
  match cell r "urls" with
  | Some (VInt z) => [inject_Z z]
  | _ => [0 # 1]%Q
  end.

Definition toy_embed (_ : Extractor) (c : Cell) : list Q :=
  match c with
  | Some (VStr t) => [inject_Z (Z.of_nat (String.length t))]
  | _ => [0 # 1]%Q
  end.

Definition toy_training (X_train : Matrix) (y_train : Series) (X_test : Matrix)
    (y_test : Series) (model_path params_path : string) : Ext Store (Model * Q) :=
  pure_ext (EnsembleModel (length X_train), (1 # 1)%Q).

(** A training step that cannot fit the first fold. *)
Definition failing_training (X_train : Matrix) (y_train : Series) (X_test : Matrix)
    (y_test : Series) (model_path params_path : string) : Ext Store (Model * Q) :=
  if decide (model_path = "models/fold_1") then
    λ st, (st, Raise (ValueError "training failed"))
  else toy_training X_train y_train X_test y_test model_path params_path.

(** A training step that is interrupted from the keyboard in the first
    fold. *)
Definition interrupted_training (X_train : Matrix) (y_train : Series)
    (X_test : Matrix) (y_test : Series) (model_path params_path : string)
  : Ext Store (Model * Q) :=
  λ st, (st, Raise (BaseException "KeyboardInterrupt")).

Definition toy_load_config (path : string) : Ext Store (gmap string string) :=
  pure_ext {[ "folds" := "2" ]}.

(** A configuration file that is not there. *)
Definition missing_config (path : string) : Ext Store (gmap string string) :=
  λ st, (st, Raise (Exception "FileNotFoundError" path)).

(** The verification of the small world compares the row counts and
    persists the verified table. *)
Definition toy_verify (merged reference : DataFrame) (file_path : option string)
  : Ext Store unit :=
  λ st,
    if decide (len merged ≠ len reference) then
      (st, Raise (ValueError "row counts do not match"))
    else
      (match file_path with
       | Some path => write_csv path merged st
       | None => st
       end, Ok tt).

Definition fold_path (prefix : string) (fold_idx : nat) : string :=
  prefix +:+ String (Ascii.ascii_of_nat (48 + fold_idx)) EmptyString.

Definition toy_env
    (load_config_impl : string → Ext Store (gmap string string))
    (model_training_impl :
       Matrix → Series → Matrix → Series → string → string → Ext Store (Model * Q))
  : Env Store :=
  {| load_config := load_config_impl;
     get_file_paths := λ _, pure_ext toy_file_paths;
     read_csv := λ _, pure_ext toy_ceas;
     load_dataset := λ _, pure_ext toy_spamassassin;
     process_dataset := λ df _ _ _, pure_ext (with_index df);
     log_label_percentages := λ _ _, pure_ext tt;
     check_missing_values := λ _ _, pure_ext tt;
     feature_engineering := λ spam ceas _,
       pure_ext (toy_headers [("sender", S_ "x@y.org"); ("receiver", S_ "z@y.org");
                              ("urls", I_ 0)] spam,
                 toy_headers [] ceas);
     load_or_save_emails := λ df _, pure_ext (project ["sender"; "receiver"] df);
     to_csv := λ df path st, (write_csv path df st, Ok tt);
     merge_dataframes := λ base feature on_column rename_columns select st,
       (st, merge_dataframes_model base feature on_column rename_columns select);
     verify_merged_dataframe := λ merged reference _ path,
       toy_verify merged reference (Some path);
     combine_dataframes := λ a b cols,
       pure_ext (mkDF cols (rows (project cols a) ++ rows (project cols b)));
     verify_combined_dataframe := λ a b, toy_verify a b None;
     save_combined_dataframe := λ df path st, (write_csv path df st, Ok tt);
     load_or_clean_data := λ _ df column _, pure_ext (toy_clean_body column df);
     combine_columns_for_cleaning := λ a b,
       pure_ext (concat_axis1 (reset_index a) (reset_index b));
     save_dataframe_to_csv := λ df path st, (write_csv path df st, Ok tt);
     generate_noisy_dataframe := λ df _, pure_ext df;
     stratified_k_fold_split := λ df,
       pure_ext (stratified_k_fold_split_model 2 42 df);
     BERTFeatureExtractor := pure_ext (BertExtractor 0);
     run_pipeline_or_load :=
       run_pipeline_or_load_model (λ _ _, tt) toy_transform_row toy_embed;
     get_model_path := λ _ fold_idx, pure_ext (fold_path "models/fold_" fold_idx);
     get_params_path := λ _ fold_idx, pure_ext (fold_path "params/fold_" fold_idx);
     model_training := model_training_impl;
     plot_learning_curve := λ _ _ _ _, pure_ext tt |}.

Definition empty_store : Store := mkStore ∅ ∅ [].

(** *** Observations on a run *)

(** Every event of a computation satisfies [P]. *)
Definition emits_only {W A} (P : Event → Prop) (m : M W A) : Prop :=
  ∀ w, Forall P (events (m w)).

(** The per-fold milestones of a run: feature extraction begins and ends,
    training begins and ends, the accuracy of the fold is appended. *)
Inductive Milestone : Type :=
| FeaturesBegin
| FeaturesEnd
| TrainingBegins
| TrainingEnds
| AccuracyAppended.

#[global] Instance Milestone_eq_dec : EqDecision Milestone.
Proof. solve_decision. Defined.

Definition mark_of (e : Event) : option (Milestone * nat) :=
  match e with
  | Enter fn (Some i) =>
      if decide (fn = "run_pipeline_or_load") then Some (FeaturesBegin, i)
      else if decide (fn = "model_training") then Some (TrainingBegins, i)
      else None
  | Exit fn (Some i) =>
      if decide (fn = "run_pipeline_or_load") then Some (FeaturesEnd, i)
      else if decide (fn = "model_training") then Some (TrainingEnds, i)
      else None
  | Append i _ => Some (AccuracyAppended, i)
  | _ => None
  end.

Definition marks (t : list Event) : list (Milestone * nat) := omap mark_of t.

Definition fold_marks (i : nat) : list (Milestone * nat) :=
  [(FeaturesBegin, i); (FeaturesEnd, i); (TrainingBegins, i); (TrainingEnds, i);
   (AccuracyAppended, i)].

(** The milestones of [n] folds processed one after the other from fold
    [start] on. *)
Definition schedule (start n : nat) : list (Milestone * nat) :=
  seq start n ≫= fold_marks.

Definition overall_accuracy_log (e : Event) : bool :=
  match e with
  | Log _ msg _ => bool_decide (msg = overall_accuracy_message)
  | _ => false
  end.

(** An event of a stage outside the loop: a call that belongs to no fold, or
    a log record other than the overall accuracy. *)
Definition foldless (e : Event) : bool :=
  match e with
  | Log _ _ _ => negb (overall_accuracy_log e)
  | Enter _ None | Exit _ None => true
  | _ => false
  end.

(** What the handler of [main] adds to the log. *)
Definition handled (e : Exn) : list Event :=
  match e with
  | Exception _ _ => [Log ERROR error_message [AExn e]]
  | BaseException _ => []
  end.

(** How [main] ends when the body of its [try] raises [e]. *)
Definition outcome (e : Exn) : Result unit :=
  match e with
  | Exception _ _ => Ok tt
  | BaseException _ => Raise e
  end.

(** A computation passes the milestones [l], in this order: all of them when
    it returns, an initial part of them when it raises. *)
Definition passes {W A} (m : M W A) (l : list (Milestone * nat)) : Prop :=
  ∀ w, (is_ok (result (m w)) = true → marks (events (m w)) = l)
       ∧ marks (events (m w)) `prefix_of` l.

(** *** The index key *)



(** The processed CEAS_08 frame of the small world, and its cleaned headers
    as a table that carries the index and lists the records in the opposite
    order. *)
Definition toy_processed_ceas : DataFrame := with_index toy_ceas.



(** The cleaned headers as the small world computes them, the processed
    frame after the in-place [drop], and the two merged back. *)
Definition toy_cleaned_headers : DataFrame :=
  project ["sender"; "receiver"] toy_processed_ceas.

Definition toy_dropped_ceas : DataFrame :=
  project ["date"; "subject"; "body"; "label"; "urls"; "index"] toy_processed_ceas.

Definition toy_merged_headers : DataFrame :=
  concat_axis1 (reset_index toy_cleaned_headers) (reset_index toy_dropped_ceas).

(** A frame with one label of each kind: 1, 0, and one that is neither. *)
Definition toy_labels : DataFrame :=
  make_frame ["label"] [[I_ 1]; [I_ 0]; [I_ 2]].

(** A training frame with three legitimate and two spam records, and a test
    frame. *)
Definition toy_train : DataFrame :=
  make_frame ["urls"; "cleaned_text"; "label"]
    [ [I_ 0; S_ "lunch today"; I_ 0];
      [I_ 0; S_ "see attached"; I_ 0];
      [I_ 1; S_ "meeting notes"; I_ 0];
      [I_ 3; S_ "cheap pills"; I_ 1];
      [I_ 5; S_ "you won"; I_ 1] ].

Definition toy_test : DataFrame :=
  make_frame ["urls"; "cleaned_text"; "label"]
    [ [I_ 0; S_ "invoice"; I_ 0];
      [I_ 4; S_ "verify account"; I_ 1] ].

(** The feature-extraction-or-load step of the small world, called for fold 1
    on an empty disk. *)
Definition toy_first_call : Store * Result Artifacts :=
  run_pipeline_or_load_model (λ _ _, tt) toy_transform_row toy_embed 1
    toy_train toy_test (label_series toy_train) (label_series toy_test)
    (pipeline (BertExtractor 0)) "feature_extraction" empty_store.

(** The split as a collaborator with the fold count and the seed fixed. *)
Definition stratified_k_fold_split_ext (k : nat) (random_state : Z)
    (df : DataFrame) : Ext Store (list Fold) :=
  λ st, (st, Ok (stratified_k_fold_split_model k random_state df)).

(** The first header-feature merge of the small world: the processed
    SpamAssassin frame and its header features. *)
Definition toy_processed_spam : DataFrame := with_index toy_spamassassin.

Definition toy_spam_headers : DataFrame :=
  toy_headers [("sender", S_ "x@y.org"); ("receiver", S_ "z@y.org"); ("urls", I_ 0)]
    toy_processed_spam.



(** The disk and the artifacts after the first call for fold 1. *)
Definition toy_store_after : Store := toy_first_call.1.

Definition toy_artifacts : Artifacts :=
  match toy_first_call.2 with
  | Ok a => a
  | Raise _ => ([], [], [], [])
  end.

(** *** What a completed loop leaves in the log *)

(** The accuracies appended to [fold_test_accuracies], in order. *)
Definition appended (t : list Event) : list Q :=
  omap (λ e, match e with Append _ acc => Some acc | _ => None end) t.

(** The folds for which the collaborator [fn] was entered, in order. *)
Definition entered (fn : string) (t : list Event) : list (option nat) :=
  omap (λ e, match e with
             | Enter fn' fold => if decide (fn' = fn) then Some fold else None
             | _ => None
             end) t.

Definition curve_fold (c : Curve) : nat := c.2.

(** The events of the plotting loop over entries of the folds [idxs]. *)
Definition plot_events (idxs : list nat) : list Event :=
  idxs ≫= (λ i, [Enter "plot_learning_curve" (Some i);
                  Exit "plot_learning_curve" (Some i)]).

(** The events of one pass through the body of the loop, up to the plotting
    loop, when every collaborator returns. *)
Definition fold_events (fold_idx : nat) (test_accuracy : Q) : list Event :=
  [Log INFO "Beginning Feature Extraction for Fold {fold_idx}..."
     [AInt (Z.of_nat fold_idx)];
   Enter "BERTFeatureExtractor" (Some fold_idx);
   Exit "BERTFeatureExtractor" (Some fold_idx);
   Enter "run_pipeline_or_load" (Some fold_idx);
   Exit "run_pipeline_or_load" (Some fold_idx);
   Log INFO
     ("Data for Fold {fold_idx} has been processed or loaded successfully."
        +:+ newline)
     [AInt (Z.of_nat fold_idx)];
   Log INFO "Beginning Model Training and Evaluation for Fold {fold_idx}..."
     [AInt (Z.of_nat fold_idx)];
   Enter "get_model_path" (Some fold_idx); Exit "get_model_path" (Some fold_idx);
   Enter "get_params_path" (Some fold_idx); Exit "get_params_path" (Some fold_idx);
   Enter "model_training" (Some fold_idx); Exit "model_training" (Some fold_idx);
   Append fold_idx test_accuracy;
   Log INFO
     ("Data for Fold {fold_idx} has been processed, model trained, and evaluated."
        +:+ newline)
     [AInt (Z.of_nat fold_idx)]].

(** The events of a loop that completes: fold after fold, each followed by
    the plots of every entry collected so far. *)
Fixpoint completed_events (fold_idx : nat) (plotted : list nat)
    (accuracies : list Q) : list Event :=
  match accuracies with
  | [] => []
  | test_accuracy :: rest =>
      fold_events fold_idx test_accuracy
        ++ plot_events (plotted ++ [fold_idx])
        ++ completed_events (S fold_idx) (plotted ++ [fold_idx]) rest
  end.

(** The collaborators that the body of the loop calls before the plots. *)
Definition fold_collaborators : list string :=
  ["BERTFeatureExtractor"; "run_pipeline_or_load"; "get_model_path";
   "get_params_path"; "model_training"].

(** The entries plotted by a loop over [n] folds that starts at fold [start]
    with the entries of the folds [plotted] already collected: in its pass
    [k] the entries collected before the loop and those of the folds
    [start .. start + k]. *)
Definition replotted (start : nat) (plotted : list nat) (n : nat) : list nat :=
  seq 0 n ≫= (λ k, plotted ++ seq start (S k)).

(** The small world with other file paths, another SpamAssassin dataset and
    another split. *)
Definition small_env (file_paths : gmap string string)
    (df_spamassassin : DataFrame) (folds : DataFrame → list Fold) : Env Store :=
  let env := toy_env toy_load_config toy_training in
  {| load_config := load_config env;
     get_file_paths := λ _, pure_ext file_paths;
     read_csv := read_csv env;
     load_dataset := λ _, pure_ext df_spamassassin;
     process_dataset := process_dataset env;
     log_label_percentages := log_label_percentages env;
     check_missing_values := check_missing_values env;
     feature_engineering := feature_engineering env;
     load_or_save_emails := load_or_save_emails env;
     to_csv := to_csv env;
     merge_dataframes := merge_dataframes env;
     verify_merged_dataframe := verify_merged_dataframe env;
     combine_dataframes := combine_dataframes env;
     verify_combined_dataframe := verify_combined_dataframe env;
     save_combined_dataframe := save_combined_dataframe env;
     load_or_clean_data := load_or_clean_data env;
     combine_columns_for_cleaning := combine_columns_for_cleaning env;
     save_dataframe_to_csv := save_dataframe_to_csv env;
     generate_noisy_dataframe := generate_noisy_dataframe env;
     stratified_k_fold_split := λ df, pure_ext (folds df);
     BERTFeatureExtractor := BERTFeatureExtractor env;
     run_pipeline_or_load := run_pipeline_or_load env;
     get_model_path := get_model_path env;
     get_params_path := get_params_path env;
     model_training := model_training env;
     plot_learning_curve := plot_learning_curve env |}.

(** Two folds over the small training and test frames, and the loop run on
    them from fold 1 with nothing collected yet. *)
Definition toy_folds : list Fold :=
  [(toy_train, toy_test, label_series toy_train, label_series toy_test);
   (toy_train, toy_test, label_series toy_train, label_series toy_test)].

Definition toy_loop : Out Store (list Q * list Curve) :=
  fold_loop (toy_env toy_load_config toy_training) ∅ 1 toy_folds [] [] empty_store.

(** The SpamAssassin dataset without its label column. *)
Definition toy_unlabelled : DataFrame :=
  make_frame ["group"; "text"]
    [ [S_ "easy_ham"; S_ "meeting notes"];
      [S_ "spam"; S_ "cheap pills"] ].

(** An error record of the log. *)
Definition error_log (e : Event) : bool :=
  match e with
  | Log ERROR _ _ => true
  | _ => false
  end.

(** The number of rows of a frame whose label is [v]. *)
Definition label_count (v : Cell) (df : DataFrame) : nat :=
  length (filter (λ lr, cell lr.2 "label" = v) (rows df)).

(** Cleaned headers that lack the last record of the processed CEAS_08 frame
    of the small world. *)
Definition toy_short_headers : DataFrame :=
  mkDF ["sender"; "receiver"] (take 3 (rows toy_cleaned_headers)).

(** The folds for which the collaborator [fn] has returned, in order. *)
Definition exited (fn : string) (t : list Event) : list (option nat) :=
  omap (λ e, match e with
             | Exit fn' fold => if decide (fn' = fn) then Some fold else None
             | _ => None
             end) t.

(** A computation follows the script [l]: its events are all of [l] when it
    returns and an initial part of [l] when it raises. *)
Definition follows {W A} (m : M W A) (l : list Event) : Prop :=
  ∀ w, (is_ok (result (m w)) = true → events (m w) = l)
       ∧ events (m w) `prefix_of` l.

(** The script of the data integration (lines 200-234), up to the entry into
    the saving of the combined frame, and from there on. *)
Definition integration_script_verified : list Event :=
  [Log INFO "Beginning Data Integration..." [];
   Log INFO "Merging Processed Spam Assassin and Spam Assassin Header Dataframes..." [];
   Enter "merge_dataframes" None; Exit "merge_dataframes" None;
   Enter "verify_merged_dataframe" None; Exit "verify_merged_dataframe" None;
   Log INFO "Merging Processed CEAS_08 and CEAS_08 Header Dataframes..." [];
   Enter "merge_dataframes" None; Exit "merge_dataframes" None;
   Enter "verify_merged_dataframe" None; Exit "verify_merged_dataframe" None;
   Log INFO "Merging Spam Assassin and CEAS_08 Dataframes..." [];
   Enter "combine_dataframes" None; Exit "combine_dataframes" None;
   Enter "verify_combined_dataframe" None; Exit "verify_combined_dataframe" None].

Definition integration_script : list Event :=
  integration_script_verified
    ++ [Enter "save_combined_dataframe" None; Exit "save_combined_dataframe" None;
        Log INFO ("Data Integration completed." +:+ newline) []].

(** The script of the body cleaning, the noise injection and the split
    (lines 239-267), up to the entry into the split, and from there on. *)
Definition cleaning_script_before_split : list Event :=
  [Log INFO "Beginning Data Cleaning ['body']..." [];
   Enter "load_or_clean_data" None; Exit "load_or_clean_data" None;
   Enter "combine_columns_for_cleaning" None; Exit "combine_columns_for_cleaning" None;
   Enter "verify_combined_dataframe" None; Exit "verify_combined_dataframe" None;
   Enter "save_dataframe_to_csv" None; Exit "save_dataframe_to_csv" None;
   Log INFO "Beginning Noise Injection..." [];
   Enter "generate_noisy_dataframe" None; Exit "generate_noisy_dataframe" None;
   Log INFO ("Noise Injection completed." +:+ newline) [];
   Log INFO "Beginning Data Splitting..." []].

Definition cleaning_script : list Event :=
  cleaning_script_before_split
    ++ [Enter "stratified_k_fold_split" None; Exit "stratified_k_fold_split" None;
        Log INFO ("Data Splitting completed." +:+ newline) []].

(** *** [flask_app.py]: the views of the add-in server *)

(** What the views call: the evaluation of a single email
    ([SingleEvaluation.SingleEvaluation.main]), and Flask's [render_template]
    and [send_file].  [O] is what the evaluation returns, [R] a response. *)
Record Flask (W O R : Type) : Type := mkFlask {
  SingleEvaluation_main : Ext W O;
  (** [render_template(name, **context)] *)
  render_template : string → list (string * O) → Ext W R;
  (** [send_file(path, mimetype=mimetype)] *)
  send_file : string → string → Ext W R
}.
Arguments SingleEvaluation_main {W O R} f.
Arguments render_template {W O R} f.
Arguments send_file {W O R} f.

Section FlaskApp.
Context {W O R : Type} (flask : Flask W O R).

Definition index : M W R :=
  call "render_template" None (render_template flask "index.html" []).

Definition taskpane : M W R :=
  output ← call "SingleEvaluation.main" None (SingleEvaluation_main flask);
  call "render_template" None
    (render_template flask "taskpane.html" [("output", output)]).

Definition taskpanedev : M W R :=
  output ← call "SingleEvaluation.main" None (SingleEvaluation_main flask);
  call "render_template" None
    (render_template flask "taskpanedev.html" [("output", output)]).

Definition commands : M W R :=
  call "render_template" None (render_template flask "commands.html" []).

Definition icon16 : M W R :=
  call "send_file" None (send_file flask "./static/assets/icon-16.png" "image/png").

Definition icon32 : M W R :=
  call "send_file" None (send_file flask "./static/assets/icon-32.png" "image/png").

Definition icon64 : M W R :=
  call "send_file" None (send_file flask "./static/assets/icon-64.png" "image/png").

Definition icon128 : M W R :=
  call "send_file" None (send_file flask "./static/assets/icon-80.png" "image/png").

Definition iconlogofilled : M W R :=
  call "send_file" None
    (send_file flask "./static/assets/logo-filled.png" "image/png").

Definition favicon : M W R :=
  call "send_file" None
    (send_file flask "./static/favicon.ico" "image/vnd.microsoft.icon").

(** The rules registered by the [@app.route] decorators, in the order of the
    file, each with its view. *)
Definition url_map : list (string * M W R) :=
  [("/", index);
   ("/taskpane.html", taskpane);
   ("/taskpanedev.html", taskpanedev);
   ("/commands.html", commands);
   ("/assets/icon-16.png", icon16);
   ("/assets/icon-32.png", icon32);
   ("/assets/icon-64.png", icon64);
   ("/assets/icon-80.png", icon128);
   ("/assets/logo-filled.png", iconlogofilled);
   ("/favicon.ico", favicon)].

End FlaskApp.

(** The rules of the two task panes, of the pages and of the files. *)
Definition taskpane_rules : list string := ["/taskpane.html"; "/taskpanedev.html"].

Definition page_rules : list string :=
  ["/"; "/taskpane.html"; "/taskpanedev.html"; "/commands.html"].

(** The template of a page: the name of its rule, [index.html] for the
    root. *)
Definition template_of (rule : string) : string :=
  match rule with
  | String _ EmptyString => "index.html"
  | String _ name => name
  | EmptyString => EmptyString
  end.

(** The media type of a file: an icon for the favicon, PNG for the
    others. *)
Definition mimetype_of (rule : string) : string :=
  if decide (rule = "/favicon.ico") then "image/vnd.microsoft.icon" else "image/png".

(** A server whose evaluation returns a verdict, and one whose evaluation
    fails. *)
Definition toy_flask : Flask unit string string :=
  {| SingleEvaluation_main := pure_ext "Safe";
     render_template := λ name context,
       pure_ext (name +:+ default "" (snd <$> head context));
     send_file := λ path mimetype, pure_ext path |}.

Definition failing_flask : Flask unit string string :=
  {| SingleEvaluation_main := λ w, (w, Raise (ValueError "no email"));
     render_template := render_template toy_flask;
     send_file := send_file toy_flask |}.

(* ===================================================================== *)
(** ** Part II: theorems *)
(* ===================================================================== *)

#[local] Set Warnings "-clear-no-such-hyp".

(** *** The run monad *)

Section Monad.
Context {W : Type}.

Lemma bind_run {A B} (m : M W A) (k : A → M W B) (w : W) :
  (m ≫= k) w =
  match result (m w) with
  | Ok a => mkOut (world (k a (world (m w))))
                  (events (m w) ++ events (k a (world (m w))))
                  (result (k a (world (m w))))
  | Raise e => mkOut (world (m w)) (events (m w)) (Raise e)
  end.
Proof. reflexivity. Qed.

Lemma bind_known {A B} (m : M W A) (k : A → M W B) w w' ev a w'' ev' r :
  m w = mkOut w' ev (Ok a) → k a w' = mkOut w'' ev' r →
  (m ≫= k) w = mkOut w'' (ev ++ ev') r.
Proof. intros Hm Hk. by rewrite bind_run, Hm; simpl; rewrite Hk. Qed.

Lemma bind_raised {A B} (m : M W A) (k : A → M W B) w w' ev e :
  m w = mkOut w' ev (Raise e) → (m ≫= k) w = mkOut w' ev (Raise e).
Proof. intros Hm. by rewrite bind_run, Hm. Qed.

Lemma call_known {A} fn fold (f : Ext W A) w w' a :
  f w = (w', Ok a) → call fn fold f w = mkOut w' [Enter fn fold; Exit fn fold] (Ok a).
Proof. intros Hf. unfold call. by rewrite Hf. Qed.

Lemma call_raised {A} fn fold (f : Ext W A) w w' e :
  f w = (w', Raise e) → call fn fold f w = mkOut w' [Enter fn fold] (Raise e).
Proof. intros Hf. unfold call. by rewrite Hf. Qed.

Lemma getitem_known d k v (w : W) :
  d !! k = Some v → getitem d k w = mkOut w [] (Ok v).
Proof. intros Hk. unfold getitem. by rewrite Hk. Qed.

Lemma emits_only_bind {A B} P (m : M W A) (k : A → M W B) :
  emits_only P m → (∀ a, emits_only P (k a)) → emits_only P (m ≫= k).
Proof.
  intros Hm Hk w. rewrite bind_run.
  destruct (result (m w)) as [a|e]; simpl; [|apply Hm].
  apply Forall_app; split; [apply Hm | apply Hk].
Qed.

Lemma emits_only_ret {A} P (a : A) : emits_only P (mret a : M W A).
Proof. intros w. constructor. Qed.

Lemma emits_only_raise {A} P (e : Exn) : emits_only P (raise e : M W A).
Proof. intros w. constructor. Qed.

Lemma emits_only_lift {A} P (r : Result A) : emits_only P (lift r : M W A).
Proof. intros w. constructor. Qed.

Lemma emits_only_emit P (e : Event) : P e → emits_only P (emit e : M W unit).
Proof. intros He w. simpl. by repeat constructor. Qed.

Lemma emits_only_getitem P d k : emits_only P (getitem d k : M W string).
Proof. unfold getitem. destruct (d !! k); intros w; constructor. Qed.

Lemma emits_only_call {A} P fn fold (f : Ext W A) :
  P (Enter fn fold) → P (Exit fn fold) → emits_only P (call fn fold f).
Proof.
  intros H1 H2 w. unfold call. destruct (f w) as [w' [a|e]]; simpl;
    by repeat constructor.
Qed.

End Monad.

Ltac emits :=
  unfold logging_info, logging_error;
  repeat first
    [ apply emits_only_ret
    | apply emits_only_raise
    | apply emits_only_lift
    | apply emits_only_getitem
    | apply emits_only_emit; done
    | apply emits_only_call; done
    | apply emits_only_bind; [|intro]
    | match goal with
      | |- emits_only _ (match ?x with _ => _ end) => destruct x
      | |- emits_only _ (if ?c then _ else _) => destruct c
      | |- emits_only _ (let '(_, _) := ?x in _) => destruct x
      end ].

(** *** The stages outside the loop *)

Section Stages.
Context {W : Type} (env : Env W).

Lemma load_inputs_foldless :
  emits_only (λ e, foldless e = true) (load_inputs env).
Proof. unfold load_inputs. emits. Qed.

Lemma data_preprocessing_foldless fp a b :
  emits_only (λ e, foldless e = true) (data_preprocessing env fp a b).
Proof. unfold data_preprocessing. emits. Qed.

Lemma merge_cleaned_headers_foldless fp a b :
  emits_only (λ e, foldless e = true) (merge_cleaned_headers env fp a b).
Proof. unfold merge_cleaned_headers. emits. Qed.

Lemma data_integration_foldless fp a b c d e' :
  emits_only (λ e, foldless e = true) (data_integration env fp a b c d e').
Proof. unfold data_integration. emits. Qed.

Lemma clean_noise_split_foldless fp a :
  emits_only (λ e, foldless e = true) (clean_noise_split env fp a).
Proof. unfold clean_noise_split. emits. Qed.

Lemma before_loop_foldless fp a b :
  emits_only (λ e, foldless e = true) (before_loop env fp a b).
Proof.
  unfold before_loop.
  pose proof (data_preprocessing_foldless fp a b).
  pose proof (merge_cleaned_headers_foldless fp).
  pose proof (data_integration_foldless fp).
  pose proof (clean_noise_split_foldless fp).
  emits; auto.
Qed.

End Stages.

(** *** Milestones of the fold loop *)

Section Milestones.
Context {W : Type}.

Lemma passes_bind {A B} (m : M W A) (k : A → M W B) l1 l2 :
  passes m l1 → (∀ a, passes (k a) l2) → passes (m ≫= k) (l1 ++ l2).
Proof.
  intros Hm Hk w. rewrite bind_run. destruct (Hm w) as [Hok Hpre].
  destruct (result (m w)) as [a|e]; simpl.
  - destruct (Hk a (world (m w))) as [Hok' Hpre'].
    unfold marks in *. rewrite omap_app, (Hok eq_refl). split.
    + intros Hr. by rewrite (Hok' Hr).
    + by apply prefix_app.
  - split; [done|]. by apply prefix_app_r.
Qed.

Lemma passes_eq {A} (m : M W A) l l' : passes m l' → l' = l → passes m l.
Proof. by intros ? <-. Qed.

Lemma passes_ret {A} (a : A) : passes (mret a : M W A) [].
Proof. by intros w. Qed.

Lemma passes_emit (e : Event) : passes (emit e : M W unit) (marks [e]).
Proof. by intros w. Qed.

Lemma passes_log lvl msg args : passes (emit (Log lvl msg args) : M W unit) [].
Proof. by intros w. Qed.

Lemma passes_append i acc :
  passes (emit (Append i acc) : M W unit) [(AccuracyAppended, i)].
Proof. by intros w. Qed.

Lemma passes_call {A} fn fold (f : Ext W A) :
  passes (call fn fold f) (marks [Enter fn fold; Exit fn fold]).
Proof.
  intros w. unfold call. destruct (f w) as [w' [a|e]]; [done|].
  split; [done|]. cbn [events].
  change [Enter fn fold; Exit fn fold] with ([Enter fn fold] ++ [Exit fn fold]).
  unfold marks. rewrite omap_app. by apply prefix_app_r.
Qed.

End Milestones.

(** Runs a computation whose calls and tests are settled by hypotheses. *)
Ltac run_known :=
  unfold logging_info, logging_error;
  cbv beta iota;
  lazymatch goal with
  | |- (_ ≫= _) _ = _ =>
      first [ eapply bind_known; [run_known | run_known]
            | eapply bind_raised; run_known ]
  | |- call _ _ _ _ = _ =>
      first [ eapply call_known; eassumption | eapply call_raised; eassumption ]
  | |- getitem _ _ _ = _ => eapply getitem_known; eassumption
  | |- lift ?r _ = _ =>
      try match goal with H : r = _ |- _ => rewrite H end; reflexivity
  | |- (if decide ?P then _ else _) _ = _ =>
      first [ rewrite (decide_True (P := P)) by (simpl; set_solver)
            | rewrite (decide_False (P := P)) by (simpl; congruence) ];
      run_known
  | |- _ => reflexivity
  end.

Ltac passes_all :=
  unfold logging_info, logging_error;
  repeat match goal with
    | |- passes (mret _) _ => eapply passes_ret
    | |- passes (emit (Log _ _ _)) _ => eapply passes_log
    | |- passes (emit (Append _ _)) _ => eapply passes_append
    | |- passes (call _ _ _) _ => eapply passes_call
    | |- passes (_ ≫= _) _ => eapply passes_bind; [|intro]
    | |- passes (match ?x with _ => _ end) _ => destruct x
    end.

(** *** Running a computation step by step *)

Section Steps.
Context {W : Type}.

Lemma getitem_missing d k (w : W) :
  d !! k = None → getitem d k w = mkOut w [] (Raise (KeyError k)).
Proof. intros Hk. unfold getitem. by rewrite Hk. Qed.

Lemma try_except_caught {A} (body : M W A) handler w w' ev cls msg w'' ev' r :
  body w = mkOut w' ev (Raise (Exception cls msg)) →
  handler (Exception cls msg) w' = mkOut w'' ev' r →
  try_except body handler w = mkOut w'' (ev ++ ev') r.
Proof. intros Hb Hh. unfold try_except. by rewrite Hb; simpl; rewrite Hh. Qed.

Lemma try_except_returned {A} (body : M W A) handler w w' ev a :
  body w = mkOut w' ev (Ok a) → try_except body handler w = mkOut w' ev (Ok a).
Proof. intros Hb. unfold try_except. by rewrite Hb. Qed.

Lemma out_eta {A} (o : Out W A) : o = mkOut (world o) (events o) (result o).
Proof. by destruct o. Qed.

End Steps.

(** Runs a computation whose calls, lookups and tests are settled by
    hypotheses, whether it returns or raises. *)
Ltac run_steps :=
  unfold logging_info, logging_error;
  cbv beta iota;
  lazymatch goal with
  | |- (_ ≫= _) _ = _ =>
      first [ eapply bind_known; [run_steps | run_steps]
            | eapply bind_raised; run_steps ]
  | |- call _ _ _ _ = _ =>
      first [ eapply call_known; eassumption | eapply call_raised; eassumption ]
  | |- getitem _ _ _ = _ =>
      first [ eapply getitem_known; eassumption
            | eapply getitem_missing; eassumption ]
  | |- lift ?r _ = _ =>
      try match goal with H : r = _ |- _ => rewrite H end; reflexivity
  | |- try_except _ _ _ = _ =>
      first [ eapply try_except_returned; run_steps
            | eapply try_except_caught; [run_steps | reflexivity] ]
  | |- (if decide ?P then _ else _) _ = _ =>
      first [ rewrite (decide_True (P := P)) by (simpl; first [done | set_solver])
            | rewrite (decide_False (P := P))
                by (simpl; first [done | congruence | set_solver]) ];
      run_steps
  | |- _ => first [ eassumption | reflexivity ]
  end.

(** *** The loop over the folds *)

Section Loop.
Context {W : Type} (env : Env W).

Lemma plot_learning_curves_passes curves :
  passes (plot_learning_curves env curves) [].
Proof.
  induction curves as [|[[[X y] m] i] rest IH]; simpl.
  - apply passes_ret.
  - eapply passes_eq.
    + eapply passes_bind; [apply passes_call | intros; apply IH].
    + reflexivity.
Qed.

Lemma fold_body_passes config i fold accs curves :
  passes (fold_body env config i fold accs curves) (fold_marks i).
Proof.
  unfold fold_body. destruct fold as [[[X_train X_test] y_train] y_test].
  eapply passes_eq.
  - passes_all. apply plot_learning_curves_passes.
  - reflexivity.
Qed.

Lemma fold_loop_passes config folds : ∀ start accs curves,
  passes (fold_loop env config start folds accs curves)
         (schedule start (length folds)).
Proof.
  induction folds as [|fold rest IH]; intros start accs curves; simpl.
  - apply passes_ret.
  - change (schedule start (S (length rest)))
      with (fold_marks start ++ schedule (S start) (length rest)).
    eapply passes_bind; [apply fold_body_passes|].
    intros [accs' curves']. apply IH.
Qed.

Lemma plot_learning_curves_quiet curves :
  emits_only (λ e, overall_accuracy_log e = false) (plot_learning_curves env curves).
Proof.
  induction curves as [|[[[X y] m] i] rest IH]; simpl; emits. apply IH.
Qed.

Lemma fold_loop_quiet config folds : ∀ start accs curves,
  emits_only (λ e, overall_accuracy_log e = false)
             (fold_loop env config start folds accs curves).
Proof.
  induction folds as [|fold rest IH]; intros start accs curves; simpl.
  - emits.
  - apply emits_only_bind.
    + unfold fold_body. destruct fold as [[[X_train X_test] y_train] y_test].
      emits. apply plot_learning_curves_quiet.
    + intros [accs' curves']. apply IH.
Qed.

(** How a run of [main] decomposes: the loading prelude, the stages before
    the loop, the loop, and either the overall accuracy or the handler. *)
Lemma main_run (w : W) :
  let o := main env w in
  let o0 := load_inputs env w in
  match result o0 with
  | Raise e => events o = events o0 ∧ result o = Raise e
  | Ok (config, file_paths, df_ceas, df_spamassassin) =>
      let o1 := before_loop env file_paths df_ceas df_spamassassin (world o0) in
      match result o1 with
      | Raise e =>
          events o = events o0 ++ events o1 ++ handled e ∧ result o = outcome e
      | Ok folds =>
          let o2 := fold_loop env config 1 folds [] [] (world o1) in
          match result o2 with
          | Raise e =>
              events o = events o0 ++ events o1 ++ events o2 ++ handled e
              ∧ result o = outcome e
          | Ok (fold_test_accuracies, _) =>
              events o = events o0 ++ events o1 ++ events o2 ++
                [Log INFO completed_message [];
                 Log INFO overall_accuracy_message
                   [AMean (np_mean fold_test_accuracies)]]
              ∧ result o = Ok tt
          end
      end
  end.
Proof.
  unfold main. cbv zeta. rewrite bind_run.
  destruct (result (load_inputs env w)) as [[[[config fp] dc] ds]|e]; [|done].
  simpl. unfold try_except, try_body. rewrite bind_run.
  destruct (result (before_loop env fp dc ds _)) as [folds|e]; simpl.
  - rewrite bind_run.
    destruct (result (fold_loop env config 1 folds [] [] _)) as [[accs curves]|e];
      simpl.
    + by rewrite <- ?app_assoc.
    + destruct e; simpl; by rewrite <- ?app_assoc, ?app_nil_r.
  - destruct e; simpl; by rewrite ?app_nil_r.
Qed.

End Loop.

(** *** The schedule of the folds *)

Lemma schedule_S start n :
  schedule start (S n) = fold_marks start ++ schedule (S start) n.
Proof. reflexivity. Qed.

Lemma elem_of_fold_marks m j x : (m, j) ∈ fold_marks x → j = x.
Proof.
  unfold fold_marks. rewrite !elem_of_cons, elem_of_nil.
  intros [?|[?|[?|[?|[?|[]]]]]]; by simplify_eq.
Qed.

Lemma elem_of_schedule m j start n :
  (m, j) ∈ schedule start n → (start ≤ j < start + n)%nat.
Proof.
  unfold schedule. rewrite list_elem_of_bind. intros (x & Hin & Hx).
  apply elem_of_seq in Hx. apply elem_of_fold_marks in Hin as ->. lia.
Qed.

Lemma schedule_training_ends i start n :
  (TrainingBegins, i) ∈ schedule start n → (TrainingEnds, i) ∈ schedule start n.
Proof.
  unfold schedule. rewrite !list_elem_of_bind. intros (x & Hin & Hx).
  exists x. split; [|done].
  apply elem_of_fold_marks in Hin as ->. set_solver.
Qed.

(** A run that began the training of fold [i] and never ended it went
    through the folds before [i] and stopped there. *)
Lemma schedule_stalled i n : ∀ start p,
  p `prefix_of` schedule start n →
  (TrainingBegins, i) ∈ p → (TrainingEnds, i) ∉ p →
  p = schedule start (i - start)
        ++ [(FeaturesBegin, i); (FeaturesEnd, i); (TrainingBegins, i)].
Proof.
  induction n as [|n IH]; intros start p [k Hk] Hin Hnot.
  - symmetry in Hk. apply app_eq_nil in Hk as [-> _]. by apply elem_of_nil in Hin.
  - rewrite schedule_S in Hk. apply app_eq_inv in Hk as [(k' & Hp & _)|(k' & Hp & Hs)].
    + unfold fold_marks in Hp.
      assert (i = start ∧ p = [(FeaturesBegin, i); (FeaturesEnd, i); (TrainingBegins, i)])
        as [-> ->].
      { repeat (destruct p as [|? p]; simplify_eq/=);
          repeat match goal with
                 | H : _ ∈ [] |- _ => by apply elem_of_nil in H
                 | H : _ ∈ _ :: _ |- _ => apply elem_of_cons in H as [?|H]; simplify_eq
                 end;
          try done; exfalso; apply Hnot; set_solver. }
      by rewrite Nat.sub_diag.
    + subst p. apply elem_of_app in Hin as [Hin|Hin].
      * exfalso. apply Hnot. apply elem_of_app. left.
        apply elem_of_fold_marks in Hin as ->. set_solver.
      * assert (k' `prefix_of` schedule (S start) n) as Hpre by (by exists k).
        assert (S start ≤ i)%nat.
        { destruct Hpre as [k'' Hk'']. 
          assert ((TrainingBegins, i) ∈ schedule (S start) n) as Hs'
            by (rewrite Hk''; set_solver).
          apply elem_of_schedule in Hs'. lia. }
        rewrite (IH (S start) k' Hpre Hin) by set_solver.
        replace (i - start) with (S (i - S start)) by lia.
        by rewrite schedule_S, <- app_assoc.
Qed.

Lemma marks_app (t1 t2 : list Event) : marks (t1 ++ t2) = marks t1 ++ marks t2.
Proof. apply omap_app. Qed.

Lemma foldless_marks (t : list Event) :
  Forall (λ e, foldless e = true) t → marks t = [].
Proof.
  induction 1 as [|e t He _ IH]; [done|].
  change (e :: t) with ([e] ++ t). rewrite marks_app, IH.
  by destruct e as [| ? [?|] | ? [?|] |].
Qed.

Lemma foldless_quiet (t : list Event) :
  Forall (λ e, foldless e = true) t → Forall (λ e, overall_accuracy_log e = false) t.
Proof.
  intros H. eapply Forall_impl; [exact H|].
  intros [| ? [?|] | ? [?|] |]; simpl; try done.
  by intros ->%negb_true_iff.
Qed.

Lemma handled_marks e : marks (handled e) = [].
Proof. by destruct e. Qed.

Lemma handled_quiet e : Forall (λ e, overall_accuracy_log e = false) (handled e).
Proof. destruct e; by repeat constructor. Qed.

Lemma quiet_no_overall (t : list Event) :
  Forall (λ e, overall_accuracy_log e = false) t →
  ¬ Exists (λ e, overall_accuracy_log e = true) t.
Proof.
  rewrite Forall_forall, Exists_exists. intros H (e & He & Hov).
  specialize (H e He). congruence.
Qed.

(** *** A training that raises *)

Section TrainingFailure.
Context {W : Type} (env : Env W).

(** A pass through the body of the loop that has entered the training of
    fold [j] and has not left it was ended there: the exception is the one
    that the training raised, and the entry into the training is its last
    event. *)
Lemma fold_body_stalled config fold_idx fold accs curves w j :
  (TrainingBegins, j) ∈ marks (events (fold_body env config fold_idx fold accs curves w)) →
  (TrainingEnds, j) ∉ marks (events (fold_body env config fold_idx fold accs curves w)) →
  ∃ e t,
    result (fold_body env config fold_idx fold accs curves w) = Raise e
    ∧ events (fold_body env config fold_idx fold accs curves w)
      = t ++ [Enter "model_training" (Some j)]
    ∧ ∃ X y X' y' model_path params_path w' w'',
        model_training env X y X' y' model_path params_path w' = (w'', Raise e).
Proof.
  destruct fold as [[[X_train X_test] y_train] y_test]. intros Hin Hnot.
  assert (j = fold_idx) as ->.
  { destruct (fold_body_passes env config fold_idx (X_train, X_test, y_train, y_test)
                accs curves w) as [_ [k Hk]].
    eapply elem_of_fold_marks. rewrite Hk. apply elem_of_app. by left. }
  destruct (BERTFeatureExtractor env w) as [w1 [ex|e]] eqn:H1.
  2: { exfalso. eassert (fold_body env config fold_idx (X_train, X_test, y_train, y_test)
                           accs curves w
                         = mkOut _ _ (Raise _)) as H
         by (unfold fold_body; run_steps).
       rewrite H in Hin. simpl in Hin. by apply elem_of_nil in Hin. }
  destruct (run_pipeline_or_load env fold_idx X_train X_test y_train y_test
              (pipeline ex) "feature_extraction" w1)
    as [w2 [[[[Xb Xc] yb] yt]|e]] eqn:H2.
  2: { exfalso. eassert (fold_body env config fold_idx (X_train, X_test, y_train, y_test)
                           accs curves w
                         = mkOut _ _ (Raise _)) as H
         by (unfold fold_body; run_steps).
       rewrite H in Hin. simpl in Hin.
       rewrite !elem_of_cons, elem_of_nil in Hin. naive_solver. }
  destruct (get_model_path env config fold_idx w2) as [w3 [mp|e]] eqn:H3.
  2: { exfalso. eassert (fold_body env config fold_idx (X_train, X_test, y_train, y_test)
                           accs curves w
                         = mkOut _ _ (Raise _)) as H
         by (unfold fold_body; run_steps).
       rewrite H in Hin. simpl in Hin.
       rewrite !elem_of_cons, elem_of_nil in Hin. naive_solver. }
  destruct (get_params_path env config fold_idx w3) as [w4 [pp|e]] eqn:H4.
  2: { exfalso. eassert (fold_body env config fold_idx (X_train, X_test, y_train, y_test)
                           accs curves w
                         = mkOut _ _ (Raise _)) as H
         by (unfold fold_body; run_steps).
       rewrite H in Hin. simpl in Hin.
       rewrite !elem_of_cons, elem_of_nil in Hin. naive_solver. }
  destruct (model_training env Xb yb Xc yt mp pp w4) as [w5 [[model acc]|e]] eqn:H5.
  2: { eassert (fold_body env config fold_idx (X_train, X_test, y_train, y_test)
                  accs curves w
                = mkOut _ _ (Raise _)) as H
         by (unfold fold_body; run_steps).
       rewrite H. simpl. exists e, (take 11 (fold_events fold_idx (0 # 1))).
       split_and!; [done..|]. by exists Xb, yb, Xc, yt, mp, pp, w4, w5. }
  exfalso. apply Hnot.
  pose proof (out_eta (plot_learning_curves env
                         (curves ++ [(Xb, yb, model, fold_idx)]) w5)) as H6.
  destruct (result (plot_learning_curves env _ w5)) as [[]|e] eqn:Hres;
    eassert (fold_body env config fold_idx (X_train, X_test, y_train, y_test)
               accs curves w = mkOut _ _ _) as H
      by (unfold fold_body; run_steps);
    rewrite H; simpl; rewrite !elem_of_cons; naive_solver.
Qed.

Lemma fold_loop_stalled config folds j : ∀ start accs curves w,
  (TrainingBegins, j)
    ∈ marks (events (fold_loop env config start folds accs curves w)) →
  (TrainingEnds, j)
    ∉ marks (events (fold_loop env config start folds accs curves w)) →
  ∃ e t,
    result (fold_loop env config start folds accs curves w) = Raise e
    ∧ events (fold_loop env config start folds accs curves w)
      = t ++ [Enter "model_training" (Some j)]
    ∧ ∃ X y X' y' model_path params_path w' w'',
        model_training env X y X' y' model_path params_path w' = (w'', Raise e).
Proof.
  induction folds as [|fold rest IH]; intros start accs curves w; simpl.
  - intros Hin. by apply elem_of_nil in Hin.
  - rewrite bind_run.
    pose proof (fold_body_passes env config start fold accs curves w) as [Hok _].
    pose proof (fold_body_stalled config start fold accs curves w j) as Hbody.
    destruct (result (fold_body env config start fold accs curves w))
      as [[accs' curves']|e]; simpl.
    + rewrite marks_app, (Hok eq_refl), !elem_of_app. intros Hin Hnot.
      destruct Hin as [Hin|Hin].
      * exfalso. apply Hnot. left. apply elem_of_fold_marks in Hin as ->.
        unfold fold_marks. set_solver.
      * destruct (IH _ _ _ _ Hin) as (e & t & Hres & Hev & Htr); [naive_solver|].
        exists e, (events (fold_body env config start fold accs curves w) ++ t).
        rewrite Hres, Hev. split_and!; [done| |done]. by rewrite app_assoc.
    + intros Hin Hnot. destruct (Hbody Hin Hnot) as (e' & t & [= <-] & Hev & Htr).
      by exists e, t.
Qed.

End TrainingFailure.

(** *** Runs of [main] *)

Section Runs.
Context {W : Type} (env : Env W).

(** A run of [main] either completes, or is ended by the handler, or fails
    while the inputs are loaded. *)
Lemma main_summary (w : W) :
  let o := main env w in
  ∃ n, marks (events o) `prefix_of` schedule 1 n ∧
    ((marks (events o) = schedule 1 n ∧ result o = Ok tt
      ∧ Exists (λ e, overall_accuracy_log e = true) (events o))
     ∨ (Forall (λ e, overall_accuracy_log e = false) (events o)
        ∧ ∃ e t, events o = t ++ handled e ∧ result o = outcome e)
     ∨ (Forall (λ e, overall_accuracy_log e = false) (events o)
        ∧ marks (events o) = [] ∧ ∃ e, result o = Raise e)).
Proof.
  intros o. pose proof (main_run env w) as Hrun. cbv zeta in Hrun. fold o in Hrun.
  pose proof (load_inputs_foldless env w) as H0.
  destruct (result (load_inputs env w)) as [[[[config fp] dc] ds]|e].
  - pose proof (before_loop_foldless env fp dc ds (world (load_inputs env w))) as H1.
    destruct (result (before_loop env fp dc ds _)) as [folds|e].
    + pose proof (fold_loop_passes env config folds 1 [] []
                    (world (before_loop env fp dc ds (world (load_inputs env w)))))
        as [Hok Hpre].
      pose proof (fold_loop_quiet env config folds 1 [] []
                    (world (before_loop env fp dc ds (world (load_inputs env w)))))
        as H2.
      exists (length folds).
      destruct (result (fold_loop env config 1 folds [] [] _)) as [[accs curves]|e];
        destruct Hrun as [Hev Hres]; rewrite Hev, !marks_app,
          (foldless_marks _ H0), (foldless_marks _ H1); simpl.
      * rewrite app_nil_r, (Hok eq_refl). split; [done|]. left.
        split_and!; [done..|].
        rewrite !Exists_app. do 3 right. apply Exists_cons_tl, Exists_cons_hd. done.
      * rewrite handled_marks, app_nil_r. split; [done|]. right; left. split.
        -- rewrite !Forall_app. split_and!; eauto using foldless_quiet, handled_quiet.
        -- exists e, (events (load_inputs env w) ++
                      events (before_loop env fp dc ds (world (load_inputs env w))) ++
                      events (fold_loop env config 1 folds [] []
                        (world (before_loop env fp dc ds (world (load_inputs env w)))))).
           by rewrite <- !app_assoc.
    + exists 0. destruct Hrun as [Hev Hres].
      rewrite Hev, !marks_app, (foldless_marks _ H0), (foldless_marks _ H1),
        handled_marks. split; [done|]. right; left. split.
      * rewrite !Forall_app. split_and!; eauto using foldless_quiet, handled_quiet.
      * exists e, (events (load_inputs env w) ++
                   events (before_loop env fp dc ds (world (load_inputs env w)))).
        by rewrite <- !app_assoc.
  - exists 0. destruct Hrun as [Hev Hres]. rewrite Hev, (foldless_marks _ H0).
    split; [done|]. do 2 right. eauto using foldless_quiet.
Qed.

(** C9: folds are processed one after the other in increasing fold-index
    order; within a fold feature extraction has returned before training is
    entered, and training has returned before the accuracy of the fold is
    appended.  The milestones of the loop over [folds] are exactly the
    schedule of [length folds] folds when the loop returns and an initial part
    of it when it raises; the milestones of a run of [main] are an initial part
    of the schedule that starts at fold 1, all of it when the overall accuracy
    is logged. *)
Theorem folds_processed_in_order :
  (∀ config folds start accs curves,
     passes (fold_loop env config start folds accs curves)
            (schedule start (length folds)))
  ∧ (∀ w, ∃ n,
       marks (events (main env w)) `prefix_of` schedule 1 n
       ∧ (Exists (λ e, overall_accuracy_log e = true) (events (main env w)) →
          marks (events (main env w)) = schedule 1 n)).
Proof.
  split; [intros; apply fold_loop_passes|].
  intros w. destruct (main_summary w) as (n & Hpre & Hcases). exists n.
  split; [done|]. intros Hex.
  destruct Hcases as [(? & _)|[(Hq & _)|(Hq & _)]]; [done|..];
    by apply quiet_no_overall in Hq.
Qed.

(** C3, as the code has it: when the training of fold [i] is entered and does
    not return, no milestone of a later fold is reached, the accuracy of fold
    [i] is not appended and no overall accuracy is logged: the whole run is
    aborted, not the fold alone.  The exception that ends the run is the one
    that the training raised.  When it is an [Exception], the handler logs
    it, right after the entry into the training, and [main] returns; an
    exception that is no [Exception] is not logged and leaves [main]. *)
Theorem training_failure_ends_the_run (w : W) (i : nat) :
  (TrainingBegins, i) ∈ marks (events (main env w)) →
  (TrainingEnds, i) ∉ marks (events (main env w)) →
  (∀ m j, (i < j)%nat → (m, j) ∉ marks (events (main env w)))
  ∧ ((AccuracyAppended, i) ∉ marks (events (main env w)))
  ∧ Forall (λ e, overall_accuracy_log e = false) (events (main env w))
  ∧ ∃ e t,
      (∃ X y X' y' model_path params_path w' w'',
         model_training env X y X' y' model_path params_path w' = (w'', Raise e))
      ∧ match e with
        | Exception cls msg =>
            events (main env w)
            = t ++ [Enter "model_training" (Some i);
                    Log ERROR error_message [AExn (Exception cls msg)]]
            ∧ result (main env w) = Ok tt
        | BaseException cls =>
            events (main env w) = t ++ [Enter "model_training" (Some i)]
            ∧ result (main env w) = Raise (BaseException cls)
        end.
Proof.
  intros Hin Hnot.
  assert ((∀ m j, (i < j)%nat → (m, j) ∉ marks (events (main env w)))
          ∧ ((AccuracyAppended, i) ∉ marks (events (main env w)))
          ∧ Forall (λ e, overall_accuracy_log e = false) (events (main env w)))
    as (Hlater & Hacc & Hquiet).
  { destruct (main_summary w) as (n & Hpre & Hcases).
    destruct Hcases as [(Heq & _)|[(Hq & He)|(_ & Hnil & _)]].
    - exfalso. apply Hnot. rewrite Heq in *. by apply schedule_training_ends.
    - pose proof (schedule_stalled i n 1 _ Hpre Hin Hnot) as Hp.
      split_and!; [| |done].
      + intros m j Hj. rewrite Hp, elem_of_app. intros [Hs|Hs].
        * apply elem_of_schedule in Hs. lia.
        * rewrite !elem_of_cons, elem_of_nil in Hs.
          destruct Hs as [?|[?|[?|[]]]]; simplify_eq; lia.
      + rewrite Hp, elem_of_app. intros [Hs|Hs].
        * apply elem_of_schedule in Hs. lia.
        * rewrite !elem_of_cons, elem_of_nil in Hs.
          destruct Hs as [?|[?|[?|[]]]]; simplify_eq.
    - rewrite Hnil in Hin. by apply elem_of_nil in Hin. }
  split_and!; [done..|].
  pose proof (main_run env w) as Hrun. cbv zeta in Hrun.
  pose proof (load_inputs_foldless env w) as H0.
  destruct (result (load_inputs env w)) as [[[[config fp] dc] ds]|e].
  - pose proof (before_loop_foldless env fp dc ds (world (load_inputs env w))) as H1.
    destruct (result (before_loop env fp dc ds _)) as [folds|e].
    + pose proof (fold_loop_passes env config folds 1 [] []
                    (world (before_loop env fp dc ds (world (load_inputs env w)))))
        as [Hok _].
      pose proof (fold_loop_stalled env config folds i 1 [] []
                    (world (before_loop env fp dc ds (world (load_inputs env w)))))
        as Hloop.
      destruct (result (fold_loop env config 1 folds [] [] _))
        as [[accs curves]|e]; destruct Hrun as [Hev Hres];
        rewrite Hev, !marks_app, (foldless_marks _ H0), (foldless_marks _ H1)
          in Hin, Hnot; simpl in Hin, Hnot.
      * exfalso. apply Hnot. rewrite app_nil_r in *.
        rewrite (Hok eq_refl) in *. by apply schedule_training_ends.
      * rewrite handled_marks, app_nil_r in Hin, Hnot.
        destruct (Hloop Hin Hnot) as (e' & t & [= <-] & Hev2 & Htr).
        exists e, (events (load_inputs env w)
                     ++ events (before_loop env fp dc ds (world (load_inputs env w)))
                     ++ t).
        split; [exact Htr|]. rewrite Hev, Hev2, Hres.
        destruct e; simpl; by rewrite <- ?app_assoc, ?app_nil_r.
    + exfalso. destruct Hrun as [Hev _].
      rewrite Hev, !marks_app, (foldless_marks _ H0), (foldless_marks _ H1),
        handled_marks in Hin. by apply elem_of_nil in Hin.
  - exfalso. destruct Hrun as [Hev _].
    rewrite Hev, (foldless_marks _ H0) in Hin. by apply elem_of_nil in Hin.
Qed.

(** C7, as the code has it: an exception raised while the configuration and
    the datasets are loaded, before the [try], leaves [main]; an [Exception]
    raised by the body of the [try] is logged with its message by the handler
    and [main] returns normally. *)
Theorem main_catches_what_the_try_raises (w : W) :
  match result (load_inputs env w) with
  | Raise e =>
      result (main env w) = Raise e
      ∧ events (main env w) = events (load_inputs env w)
  | Ok (config, file_paths, df_ceas, df_spamassassin) =>
      let body :=
        try_body env config file_paths df_ceas df_spamassassin
          (world (load_inputs env w)) in
      match result body with
      | Ok _ =>
          result (main env w) = Ok tt
          ∧ events (main env w) = events (load_inputs env w) ++ events body
      | Raise (Exception cls msg) =>
          result (main env w) = Ok tt
          ∧ events (main env w) =
              events (load_inputs env w) ++ events body
                ++ [Log ERROR error_message [AExn (Exception cls msg)]]
      | Raise (BaseException cls) =>
          result (main env w) = Raise (BaseException cls)
          ∧ events (main env w) = events (load_inputs env w) ++ events body
      end
  end.
Proof.
  unfold main. rewrite bind_run.
  destruct (result (load_inputs env w)) as [[[[config fp] dc] ds]|e]; [|done].
  cbv zeta. unfold try_except; simpl.
  destruct (result (try_body env config fp dc ds _)) as [[]|[cls msg|cls]] eqn:Hres;
    simpl; rewrite ?Hres; done.
Qed.

End Runs.

Ltac by_computation :=
  match goal with |- ?P => apply (bool_decide_unpack P) end; vm_compute; exact I.

(** The run on the small world completes, fold 1 then fold 2. *)
Lemma folds_processed_in_order_witness :
  ∃ n, marks (events (main (toy_env toy_load_config toy_training) empty_store))
       = schedule 1 n.
Proof.
  destruct (folds_processed_in_order (toy_env toy_load_config toy_training))
    as [_ H].
  destruct (H empty_store) as (n & _ & Heq). exists n. apply Heq.
  vm_compute. repeat first [apply Exists_cons_hd; reflexivity | apply Exists_cons_tl].
Defined.

(** C3 fails on the code: training cannot fit fold 1 of 2; fold 2 is never
    begun, no overall accuracy is logged, and the run ends in the handler. *)
Lemma training_failure_aborts_run :
  let o := main (toy_env toy_load_config failing_training) empty_store in
  marks (events (main (toy_env toy_load_config toy_training) empty_store))
    = schedule 1 2
  ∧ marks (events o) = [(FeaturesBegin, 1); (FeaturesEnd, 1); (TrainingBegins, 1)]
  ∧ ¬ (FeaturesBegin, 2) ∈ marks (events o)
  ∧ filter (λ e, overall_accuracy_log e = true) (events o) = []
  ∧ last (events o)
    = Some (Log ERROR error_message [AExn (ValueError "training failed")])
  ∧ result o = Ok tt.
Proof.
  cbv zeta. split_and!; try (vm_compute; reflexivity).
  by_computation.
Qed.

Lemma training_failure_ends_the_run_witness :
  let o := main (toy_env toy_load_config failing_training) empty_store in
  (∀ m j, (1 < j)%nat → (m, j) ∉ marks (events o))
  ∧ ((AccuracyAppended, 1) ∉ marks (events o))
  ∧ Forall (λ e, overall_accuracy_log e = false) (events o)
  ∧ ∃ e t,
      (∃ X y X' y' model_path params_path w' w'',
         failing_training X y X' y' model_path params_path w' = (w'', Raise e))
      ∧ match e with
        | Exception cls msg =>
            events o
            = t ++ [Enter "model_training" (Some 1);
                    Log ERROR error_message [AExn (Exception cls msg)]]
            ∧ result o = Ok tt
        | BaseException cls =>
            events o = t ++ [Enter "model_training" (Some 1)]
            ∧ result o = Raise (BaseException cls)
        end.
Proof.
  apply (training_failure_ends_the_run
           (toy_env toy_load_config failing_training) empty_store 1);
    by_computation.
Defined.

(** On the small world with a training that is interrupted from the keyboard
    in fold 1: the run is aborted in the same way, but nothing is logged
    after the entry into the training and the interrupt leaves [main]. *)
Example interrupted_training_leaves_main :
  let o := main (toy_env toy_load_config interrupted_training) empty_store in
  result o = Raise (BaseException "KeyboardInterrupt")
  ∧ last (events o) = Some (Enter "model_training" (Some 1))
  ∧ marks (events o) = [(FeaturesBegin, 1); (FeaturesEnd, 1); (TrainingBegins, 1)].
Proof. cbv zeta. split_and!; vm_compute; reflexivity. Qed.

(** C7 fails on the code: the configuration file is missing; the exception
    is raised before the [try], nothing is logged and [main] raises. *)
Lemma missing_config_escapes_main :
  let o := main (toy_env missing_config toy_training) empty_store in
  result o = Raise (Exception "FileNotFoundError" "config.json")
  ∧ events o = [Enter "load_config" None].
Proof. split; vm_compute; reflexivity. Qed.

(** *** Frames *)

Lemma cell_insert (r : gmap string Cell) c v : cell (<[c := v]> r) c = v.
Proof. unfold cell. by rewrite lookup_insert_eq. Qed.

Lemma series_map_not_binary c :
  binary_label c = false → series_map label_scheme c = None.
Proof.
  destruct c as [[z|s]|]; simpl; try done.
  intros [H0 H1]%orb_false_iff.
  apply bool_decide_eq_false in H0, H1.
  repeat case_decide; by simplify_eq.
Qed.

Lemma labels_reset_index df :
  labels (reset_index df) = Z.of_nat <$> seq 0 (len df).
Proof.
  unfold labels, reset_index, len; simpl. rewrite fmap_imap.
  rewrite <- imap_seq_0. by apply imap_ext.
Qed.

Lemma row_at_reset_index df i :
  row_at (reset_index df) (Z.of_nat i) = snd <$> rows df !! i.
Proof.
  unfold row_at, reset_index; simpl.
  destruct (rows df !! i) as [[l r]|] eqn:Hi; simpl.
  - rewrite (proj2 (list_find_Some _ _ i (Z.of_nat i, r))); [done|].
    split_and!; [by rewrite list_lookup_imap, Hi|done|].
    intros j [l' r'] Hj Hlt. rewrite list_lookup_imap in Hj.
    destruct (rows df !! j); simplify_eq/=. lia.
  - rewrite (proj2 (list_find_None _ _)); [done|].
    apply Forall_forall. intros [l' r'] [j Hj]%list_elem_of_lookup.
    rewrite list_lookup_imap in Hj.
    destruct (rows df !! j) eqn:Hj'; simplify_eq/=.
    apply lookup_lt_Some in Hj'. apply lookup_ge_None in Hi. lia.
Qed.

Lemma filter_none {A} (P : A → Prop) `{!∀ x, Decision (P x)} (l : list A) :
  Forall (λ x, ¬ P x) l → filter P l = [].
Proof.
  induction 1 as [|x l Hx _ IH]; [done|].
  by rewrite filter_cons, decide_False.
Qed.

(** After [reset_index] on both sides, [concat_axis1] pairs the rows by
    position. *)
Lemma rows_concat_reset a b :
  (len b ≤ len a)%nat →
  rows (concat_axis1 (reset_index a) (reset_index b)) =
  (λ i, (Z.of_nat i,
         default ∅ (snd <$> rows a !! i) ∪ default ∅ (snd <$> rows b !! i)))
    <$> seq 0 (len a).
Proof.
  intros Hlen. unfold concat_axis1; simpl. rewrite !labels_reset_index.
  rewrite filter_none, app_nil_r.
  - rewrite <- list_fmap_compose. apply list_fmap_ext.
    intros i x _. simpl. by rewrite !row_at_reset_index.
  - apply Forall_forall. intros l [j [-> Hj]]%list_elem_of_fmap Hnot.
    apply Hnot, list_elem_of_fmap. exists j. split; [done|].
    apply elem_of_seq in Hj. apply elem_of_seq. lia.
Qed.

Lemma concat_reset_row a b i la ra lb rb :
  len b = len a →
  rows a !! i = Some (la, ra) → rows b !! i = Some (lb, rb) →
  rows (concat_axis1 (reset_index a) (reset_index b)) !! i
  = Some (Z.of_nat i, ra ∪ rb).
Proof.
  intros Hlen Ha Hb. rewrite rows_concat_reset by lia.
  rewrite list_lookup_fmap, lookup_seq_lt by (by apply lookup_lt_Some in Ha).
  simpl. by rewrite Ha, Hb.
Qed.

Lemma len_concat_reset a b :
  len b = len a → len (concat_axis1 (reset_index a) (reset_index b)) = len a.
Proof.
  intros Hlen. unfold len at 1. rewrite rows_concat_reset by lia.
  by rewrite length_fmap, length_seq.
Qed.

Lemma len_drop_columns cs df df' : drop_columns cs df = Ok df' → len df' = len df.
Proof.
  unfold drop_columns. destruct (list_find _ cs) as [[]|]; [done|].
  intros [= <-]. unfold len; simpl. by rewrite length_fmap.
Qed.

Lemma drop_columns_row cs df df' i l r :
  drop_columns cs df = Ok df' → rows df !! i = Some (l, r) →
  rows df' !! i = Some (l, filter (λ kv, kv.1 ∉ cs) r).
Proof.
  unfold drop_columns. destruct (list_find _ cs) as [[]|]; [done|].
  intros [= <-] Hi; simpl. by rewrite list_lookup_fmap, Hi.
Qed.






Section Headers.
Context {W : Type} (env : Env W).

Lemma merge_cleaned_headers_ok fp cleaned processed w processed' merged :
  result (merge_cleaned_headers env fp cleaned processed w) = Ok (processed', merged) →
  len cleaned = len processed
  ∧ drop_columns ["sender"; "receiver"] processed = Ok processed'
  ∧ merged = concat_axis1 (reset_index cleaned) (reset_index processed')
  ∧ "sender" ∈ columns merged ∧ "receiver" ∈ columns merged
  ∧ Log INFO missing_rows_message
      [AInt (Z.of_nat (length (filter (λ lr, null_in "sender" "receiver" lr.2 = true)
                                      (rows merged))))]
    ∈ events (merge_cleaned_headers env fp cleaned processed w).
Proof.
  unfold merge_cleaned_headers, logging_info, logging_error, getitem, call.
  repeat (progress (rewrite ?bind_run; simpl)).
  destruct (decide (len cleaned ≠ len processed)) as [|Hlen%dec_stable]; [done|].
  repeat (progress (rewrite ?bind_run; simpl)).
  destruct (drop_columns _ processed) as [p'|] eqn:Hdrop; simpl; [|done].
  repeat (progress (rewrite ?bind_run; simpl)).
  destruct (rows_with_null _ _ _) as [missing|] eqn:Hnull; simpl; [|done].
  destruct (decide (len _ ≠ len p')); simpl; [done|].
  destruct (fp !! _); simpl; [|done].
  repeat (progress (rewrite ?bind_run; simpl)).
  destruct (to_csv env _ _ w) as [w' [[]|e]]; simpl; [|done].
  intros [= <- <-].
  assert (len missing = length (filter (λ lr, null_in "sender" "receiver" lr.2 = true)
            (rows (concat_axis1 (reset_index cleaned) (reset_index p'))))
          ∧ "sender" ∈ columns (concat_axis1 (reset_index cleaned) (reset_index p'))
          ∧ "receiver" ∈ columns (concat_axis1 (reset_index cleaned) (reset_index p')))
    as (Hmissing & ? & ?).
  { unfold rows_with_null in Hnull. repeat case_decide; by simplify_eq. }
  rewrite <- Hmissing. split_and!; try done. set_solver.
Qed.

(** With as many cleaned header rows as processed rows, the two header
    columns where they are expected, a path for the merged file and a write
    that succeeds, the merge returns. *)
Lemma merge_cleaned_headers_returns fp cleaned processed processed' path w w' :
  len cleaned = len processed →
  drop_columns ["sender"; "receiver"] processed = Ok processed' →
  "sender" ∈ columns cleaned → "receiver" ∈ columns cleaned →
  fp !! "merged_cleaned_ceas_headers" = Some path →
  to_csv env (concat_axis1 (reset_index cleaned) (reset_index processed')) path w
    = (w', Ok tt) →
  result (merge_cleaned_headers env fp cleaned processed w)
  = Ok (processed', concat_axis1 (reset_index cleaned) (reset_index processed')).
Proof.
  intros Hlen Hdrop Hs Hr Hpath Hcsv.
  pose proof (len_drop_columns _ _ _ Hdrop) as Hlen'.
  assert (len (concat_axis1 (reset_index cleaned) (reset_index processed'))
          = len processed') as Hlen''
    by (rewrite len_concat_reset; congruence).
  assert (rows_with_null "sender" "receiver"
            (concat_axis1 (reset_index cleaned) (reset_index processed'))
          = Ok (mkDF (columns cleaned ++ columns processed')
                  (filter (λ lr, null_in "sender" "receiver" lr.2 = true)
                     (rows (concat_axis1 (reset_index cleaned)
                              (reset_index processed')))))) as Hnull.
  { unfold rows_with_null. by rewrite !decide_True by (simpl; set_solver). }
  assert (∃ ev, merge_cleaned_headers env fp cleaned processed w
                = mkOut w' ev
                    (Ok (processed',
                         concat_axis1 (reset_index cleaned) (reset_index processed'))))
    as [ev ->]; [|done].
  eexists. unfold merge_cleaned_headers. run_known.
Qed.

(** C8: after the cleaned sender/receiver headers are merged back into the
    processed CEAS_08 frame, the rows with a null sender or receiver are
    counted and the count is logged, and the merged frame keeps every row of
    the processed frame, in place, null or not.  The merge returns whenever
    the two tables have as many rows, the header columns are where they are
    expected and the merged file can be written. *)
Theorem null_headers_counted_not_dropped :
  (∀ fp cleaned processed processed' path w w',
     len cleaned = len processed →
     drop_columns ["sender"; "receiver"] processed = Ok processed' →
     "sender" ∈ columns cleaned → "receiver" ∈ columns cleaned →
     fp !! "merged_cleaned_ceas_headers" = Some path →
     to_csv env (concat_axis1 (reset_index cleaned) (reset_index processed')) path w
       = (w', Ok tt) →
     result (merge_cleaned_headers env fp cleaned processed w)
     = Ok (processed', concat_axis1 (reset_index cleaned) (reset_index processed')))
  ∧ (∀ fp cleaned processed w processed' merged,
       result (merge_cleaned_headers env fp cleaned processed w)
         = Ok (processed', merged) →
       len merged = len processed
       ∧ (∀ i l r, rows processed !! i = Some (l, r) →
            ∃ lc c, rows cleaned !! i = Some (lc, c)
              ∧ rows merged !! i
                = Some (Z.of_nat i,
                        c ∪ filter (λ kv, kv.1 ∉ ["sender"; "receiver"]) r))
       ∧ Log INFO missing_rows_message
           [AInt (Z.of_nat
                    (length (filter (λ lr, null_in "sender" "receiver" lr.2 = true)
                                    (rows merged))))]
         ∈ events (merge_cleaned_headers env fp cleaned processed w)).
Proof.
  split; [apply merge_cleaned_headers_returns|].
  intros fp cleaned processed w processed' merged.
  intros (Hlen & Hdrop & -> & _ & _ & Hlog)%merge_cleaned_headers_ok.
  pose proof (len_drop_columns _ _ _ Hdrop) as Hlen'.
  split_and!; [|  |done].
  - rewrite len_concat_reset; congruence.
  - intros i l r Hi.
    destruct (rows cleaned !! i) as [[lc c]|] eqn:Hc.
    + exists lc, c. split; [done|].
      eapply concat_reset_row; [congruence|done|].
      by eapply drop_columns_row.
    + apply lookup_ge_None in Hc. apply lookup_lt_Some in Hi.
      unfold len in *. lia.
Qed.


End Headers.

(** C10: the SpamAssassin label remapping swaps 1 and 0, and a label that is
    neither is mapped to null, without an error: the remapped frame is
    returned, and its label is then not binary. *)
Theorem label_remap_swaps_or_nulls (df : DataFrame) :
  "label" ∈ columns df →
  ∃ df', map_column "label" label_scheme df = Ok df'
    ∧ len df' = len df
    ∧ ∀ i l r, rows df !! i = Some (l, r) →
        ∃ r', rows df' !! i = Some (l, r')
          ∧ (cell r "label" = Some (VInt 1) → cell r' "label" = Some (VInt 0))
          ∧ (cell r "label" = Some (VInt 0) → cell r' "label" = Some (VInt 1))
          ∧ (binary_label (cell r "label") = false →
             cell r' "label" = None ∧ binary_label (cell r' "label") = false).
Proof.
  intros Hcol. unfold map_column. rewrite decide_True by done.
  eexists. split; [done|]. split; [unfold len; simpl; by rewrite length_fmap|].
  intros i l r Hi. simpl. rewrite list_lookup_fmap, Hi. simpl.
  eexists. split; [done|]. rewrite cell_insert.
  split_and!.
  - by intros ->.
  - by intros ->.
  - intros Hnb. by rewrite (series_map_not_binary _ Hnb).
Qed.

Lemma null_headers_counted_not_dropped_witness :
  result (merge_cleaned_headers (toy_env toy_load_config toy_training) toy_file_paths
            toy_cleaned_headers toy_processed_ceas empty_store)
    = Ok (toy_dropped_ceas, toy_merged_headers)
  ∧ len toy_merged_headers = len toy_processed_ceas
  ∧ Log INFO missing_rows_message
      [AInt (Z.of_nat (length (filter (λ lr, null_in "sender" "receiver" lr.2 = true)
                                      (rows toy_merged_headers))))]
    ∈ events (merge_cleaned_headers (toy_env toy_load_config toy_training)
                toy_file_paths toy_cleaned_headers toy_processed_ceas empty_store).
Proof.
  assert (result (merge_cleaned_headers (toy_env toy_load_config toy_training)
                    toy_file_paths toy_cleaned_headers toy_processed_ceas empty_store)
          = Ok (toy_dropped_ceas, toy_merged_headers)) as H
    by (vm_compute; reflexivity).
  split; [exact H|].
  destruct (null_headers_counted_not_dropped (toy_env toy_load_config toy_training))
    as [_ HB].
  destruct (HB _ _ _ _ _ _ H) as (Hlen & _ & Hlog).
  split; [exact Hlen | exact Hlog].
Defined.



Lemma label_remap_swaps_or_nulls_witness :
  "label" ∈ columns toy_labels
  ∧ ∃ df', map_column "label" label_scheme toy_labels = Ok df'
      ∧ len df' = len toy_labels
      ∧ ∀ i l r, rows toy_labels !! i = Some (l, r) →
          ∃ r', rows df' !! i = Some (l, r')
            ∧ (cell r "label" = Some (VInt 1) → cell r' "label" = Some (VInt 0))
            ∧ (cell r "label" = Some (VInt 0) → cell r' "label" = Some (VInt 1))
            ∧ (binary_label (cell r "label") = false →
               cell r' "label" = None ∧ binary_label (cell r' "label") = false).
Proof.
  assert ("label" ∈ columns toy_labels) as H by (by_computation).
  split; [exact H | exact (label_remap_swaps_or_nulls toy_labels H)].
Defined.

Example label_remap_ex :
  fmap (λ lr, cell lr.2 "label")
       (match map_column "label" label_scheme toy_labels with
        | Ok df' => rows df'
        | Raise _ => []
        end)
  = [I_ 0; I_ 1; None].
Proof. vm_compute. reflexivity. Qed.

(** *** Rebalancing *)

Lemma count_label_app l (y y' : Series) :
  count_label l (y ++ y') = (count_label l y + count_label l y')%nat.
Proof. unfold count_label. by rewrite filter_app, length_app. Qed.

Lemma count_label_replicate l l' n :
  count_label l (replicate n (Some (VInt l'))) = if decide (l = l') then n else 0%nat.
Proof.
  unfold count_label. induction n as [|n IH]; simpl.
  - by case_decide.
  - rewrite filter_cons. repeat case_decide; simplify_eq/=; by rewrite ?IH.
Qed.

Lemma length_synthesize n ms s : length (synthesize n ms s) = n.
Proof. revert s. induction n as [|n IH]; intros s; simpl; by rewrite ?IH. Qed.

Lemma length_class_rows l (X : Matrix) (y : Series) :
  length X = length y → length (class_rows l X y) = count_label l y.
Proof.
  unfold count_label. revert y.
  induction X as [|x X IH]; intros [|c y] Hlen; simplify_eq/=; [done|].
  rewrite filter_cons. case_decide; simpl; by rewrite IH.
Qed.

(** When [smote] returns, the two classes have as many rows, and every
    feature vector still has its label. *)
Lemma smote_balanced random_state X y X' y' :
  smote random_state X y = Ok (X', y') →
  count_label 0 y' = count_label 1 y' ∧ length X' = length y'.
Proof.
  unfold smote. case_decide as Hlen; [done|].
  case_decide as Heq; [by intros [= <- <-]|].
  case_decide as Hms; [done|]. intros [= <- <-].
  rewrite !count_label_app, !count_label_replicate, !length_app,
    length_synthesize, length_replicate.
  destruct (decide (count_label 0 y < count_label 1 y)%nat);
    repeat case_decide; simplify_eq; lia.
Qed.

(** [smote] returns as soon as both classes have two rows. *)
Lemma smote_returns random_state X y :
  length X = length y →
  (2 ≤ count_label 0 y)%nat → (2 ≤ count_label 1 y)%nat →
  ∃ out, smote random_state X y = Ok out.
Proof.
  intros Hlen H0 H1. unfold smote. rewrite decide_False by (by intros []).
  case_decide; [by eexists|].
  rewrite length_class_rows by done.
  case_decide as Hms; [|by eexists].
  exfalso. destruct (decide (count_label 0 y < count_label 1 y)%nat); lia.
Qed.

Section FeatureExtractionFacts.
Context {Fitted : Type}.
Variable fit_columns : Step → DataFrame → Fitted.
Variable transform_row : Fitted → gmap string Cell → list Q.
Variable embed : Extractor → Cell → list Q.

Lemma length_combined_features fitted ex X :
  length (combined_features transform_row embed fitted ex X) = len X.
Proof. unfold combined_features, len. by rewrite length_fmap. Qed.

(** C5: when the feature-extraction pipeline of a fold returns, the balanced
    training labels have as many 0 as 1; the test labels are the ones it was
    given; the test features are the test rows, one for one, mapped by the
    column transformer fitted on the training frame, and nothing is added to
    them.  With the pipeline [main] builds, it returns whenever each class
    has two training rows. *)
Theorem training_balanced_test_untouched :
  (∀ p X_train X_test y_train y_test X_train_balanced X_test_combined
     y_train_balanced y_test',
     feature_extraction_pipeline fit_columns transform_row embed p
       X_train X_test y_train y_test
     = Ok (X_train_balanced, X_test_combined, y_train_balanced, y_test') →
     count_label 0 y_train_balanced = count_label 1 y_train_balanced
     ∧ length X_train_balanced = length y_train_balanced
     ∧ y_test' = y_test
     ∧ length X_test_combined = len X_test
     ∧ ∃ pre ex,
         named_step "preprocessor" p = Ok pre
         ∧ named_step "bert_features" p = Ok (BERTFeatureTransformer ex)
         ∧ X_test_combined
           = combined_features transform_row embed (fit_columns pre X_train) ex X_test)
  ∧ (∀ ex X_train X_test y_train y_test,
       len X_train = length y_train →
       (2 ≤ count_label 0 y_train)%nat → (2 ≤ count_label 1 y_train)%nat →
       ∃ out,
         feature_extraction_pipeline fit_columns transform_row embed (pipeline ex)
           X_train X_test y_train y_test = Ok out).
Proof.
  split.
  - intros p X_train X_test y_train y_test Xb Xc yb yt. unfold feature_extraction_pipeline.
    destruct (named_step "preprocessor" p) as [pre|]; [|done].
    destruct (named_step "bert_features" p) as [[| ex |]|]; simpl; try done;
      destruct (named_step "smote" p) as [[| |rs]|]; simpl; try done.
    destruct (smote rs _ y_train) as [[Xb' yb']|] eqn:Hsmote; simpl; [|done].
    intros [= <- <- <- <-].
    destruct (smote_balanced _ _ _ _ _ Hsmote) as [Hbal Hlen].
    split_and!; [done..| |].
    + apply length_combined_features.
    + by exists pre, ex.
  - intros ex X_train X_test y_train y_test Hlen H0 H1.
    unfold feature_extraction_pipeline; simpl.
    destruct (smote_returns 42 (combined_features transform_row embed
                (fit_columns preprocessor X_train) ex X_train) y_train)
      as [[Xb yb] ->]; [|done..|by eexists].
    by rewrite length_combined_features.
Qed.

Lemma load_save_artifacts dir fold_idx (a : Artifacts) files csvs done_work :
  load_artifacts (mkStore (save_artifacts dir fold_idx a files) csvs done_work)
    dir fold_idx = Some a.
Proof.
  destruct a as [[[Xb Xc] yb] yt]. unfold load_artifacts, save_artifacts; simpl.
  by simplify_map_eq.
Qed.

(** C1: [run_pipeline_or_load] returns the four artifacts by loading them
    when the four files of the fold are in the cache directory, leaving the
    disk and the record of work as they are; otherwise it runs the pipeline
    and, when that returns, writes each of the four outputs and returns them.
    Hence a second call for the same fold and directory, whatever else it is
    given, returns the same four artifacts and changes nothing: no embedding
    is extracted and nothing is oversampled. *)
Theorem feature_artifacts_cached :
  (∀ fold_idx dir p X_train X_test y_train y_test st (a : Artifacts),
     load_artifacts st dir fold_idx = Some a →
     run_pipeline_or_load_model fit_columns transform_row embed fold_idx
       X_train X_test y_train y_test p dir st = (st, Ok a))
  ∧ (∀ fold_idx dir p X_train X_test y_train y_test st,
       load_artifacts st dir fold_idx = None →
       ∃ st1,
         run_pipeline_or_load_model fit_columns transform_row embed fold_idx
           X_train X_test y_train y_test p dir st
         = (st1, feature_extraction_pipeline fit_columns transform_row embed p
                   X_train X_test y_train y_test)
         ∧ csv_files st1 = csv_files st
         ∧ work st1 = work st ++ [EmbeddingExtraction fold_idx; Oversampling fold_idx]
         ∧ match feature_extraction_pipeline fit_columns transform_row embed p
                   X_train X_test y_train y_test with
           | Ok a =>
               artifacts st1 !! (dir, fold_idx, X_train_balanced_file)
                 = Some (BMatrix a.1.1.1)
               ∧ artifacts st1 !! (dir, fold_idx, X_test_combined_file)
                 = Some (BMatrix a.1.1.2)
               ∧ artifacts st1 !! (dir, fold_idx, y_train_balanced_file)
                 = Some (BSeries a.1.2)
               ∧ artifacts st1 !! (dir, fold_idx, y_test_file) = Some (BSeries a.2)
           | Raise _ => artifacts st1 = artifacts st
           end)
  ∧ (∀ fold_idx dir p X_train X_test y_train y_test st st1 (a : Artifacts),
       run_pipeline_or_load_model fit_columns transform_row embed fold_idx
         X_train X_test y_train y_test p dir st = (st1, Ok a) →
       ∀ p' X_train' X_test' y_train' y_test',
         run_pipeline_or_load_model fit_columns transform_row embed fold_idx
           X_train' X_test' y_train' y_test' p' dir st1 = (st1, Ok a)).
Proof.
  unfold run_pipeline_or_load_model. split_and!.
  - intros * Hload. by rewrite Hload.
  - intros * Hload. rewrite Hload.
    destruct (feature_extraction_pipeline _ _ _ p X_train X_test y_train y_test)
      as [[[[Xb Xc] yb] yt]|e]; eexists; (split; [done|]); simpl;
      split_and!; try done; by simplify_map_eq.
  - intros fold_idx dir p X_train X_test y_train y_test st st1 a.
    destruct (load_artifacts st dir fold_idx) as [a0|] eqn:Hload.
    + intros [= <- <-] *. by rewrite Hload.
    + destruct (feature_extraction_pipeline _ _ _ p X_train X_test y_train y_test)
        as [a'|]; [|done].
      intros [= <- <-] *. by rewrite load_save_artifacts.
Qed.

End FeatureExtractionFacts.

Lemma training_balanced_test_untouched_witness :
  ∃ X_train_balanced X_test_combined y_train_balanced,
    feature_extraction_pipeline (λ _ _, tt) toy_transform_row toy_embed
      (pipeline (BertExtractor 0)) toy_train toy_test
      (label_series toy_train) (label_series toy_test)
    = Ok (X_train_balanced, X_test_combined, y_train_balanced, label_series toy_test)
    ∧ count_label 0 y_train_balanced = count_label 1 y_train_balanced
    ∧ length X_test_combined = len toy_test.
Proof.
  destruct (training_balanced_test_untouched (λ _ _, tt) toy_transform_row toy_embed)
    as [HA HB].
  destruct (HB (BertExtractor 0) toy_train toy_test
              (label_series toy_train) (label_series toy_test))
    as [[[[Xb Xc] yb] yt] Hout]; [vm_compute; reflexivity | vm_compute; lia..|].
  destruct (HA _ _ _ _ _ _ _ _ _ Hout) as (Hbal & _ & -> & Hlen & _).
  by exists Xb, Xc, yb.
Defined.

Lemma feature_artifacts_cached_witness :
  toy_first_call = (toy_store_after, Ok toy_artifacts)
  ∧ work toy_store_after = [EmbeddingExtraction 1; Oversampling 1]
  ∧ run_pipeline_or_load_model (λ _ _, tt) toy_transform_row toy_embed 1
      toy_train toy_test (label_series toy_train) (label_series toy_test)
      (pipeline (BertExtractor 0)) "feature_extraction" toy_store_after
    = (toy_store_after, Ok toy_artifacts).
Proof.
  assert (toy_first_call = (toy_store_after, Ok toy_artifacts)) as H
    by (vm_compute; reflexivity).
  split; [exact H|]. split; [vm_compute; reflexivity|].
  unfold toy_first_call in H.
  destruct (feature_artifacts_cached (λ _ _, tt) toy_transform_row toy_embed)
    as (_ & _ & Hagain).
  eapply Hagain, H.
Defined.


(** *** The stratified split *)

Lemma Permutation_of_eq {A} (l l' : list A) : l = l' → l ≡ₚ l'.
Proof. by intros ->. Qed.

Lemma shuffle_perm {A} (s : Z) (l : list A) : shuffle s l ≡ₚ l.
Proof.
  revert s. induction l as [|x l IH]; intros s; simpl; [done|].
  rewrite <- Permutation_middle, take_drop. by rewrite IH.
Qed.

Lemma deal_fst k order seen : (deal k order seen).*1 = order.*1.
Proof.
  revert seen. induction order as [|[p c] order IH]; intros seen; simpl; [done|].
  by rewrite IH.
Qed.

Lemma deal_snd k order seen :
  (0 < k)%nat → Forall (λ pg, (pg.2 < k)%nat) (deal k order seen).
Proof.
  intros Hk. revert seen.
  induction order as [|[p c] order IH]; intros seen; simpl; constructor; [|done].
  simpl. apply Nat.mod_upper_bound. lia.
Qed.

(** Filtering on each of the groups [0 .. k-1] splits a list whose groups are
    all below [k]. *)
Lemma groups_partition {A} k : ∀ d : list (A * nat),
  Forall (λ pg, (pg.2 < k)%nat) d →
  mjoin ((λ g, filter (λ pg, pg.2 = g) d) <$> seq 0 k) ≡ₚ d.
Proof.
  induction k as [|k IH]; intros d Hd.
  - destruct d as [|pg d]; [done|]. apply Forall_cons in Hd as [? _]. lia.
  - rewrite seq_S, fmap_app, join_app. simpl. rewrite app_nil_r.
    etransitivity; [|apply (filter_app_complement (λ pg : A * nat, pg.2 = k) d)].
    rewrite Permutation_app_comm. apply Permutation_app; [done|].
    rewrite <- (IH (filter (λ pg : A * nat, ¬ pg.2 = k) d)).
    + apply Permutation_of_eq. f_equal. apply list_fmap_ext.
      intros i g [-> Hi]%lookup_seq. rewrite list_filter_filter.
      apply list_filter_iff. intros pg. simpl. lia.
    + apply Forall_forall. intros pg [Hne Hin]%list_elem_of_filter.
      rewrite Forall_forall in Hd. specialize (Hd pg Hin). simpl in *. lia.
Qed.

Lemma join_fmap_fmap {A B C} (f : B → C) (F : A → list B) (l : list A) :
  mjoin ((λ x, f <$> F x) <$> l) = f <$> mjoin (F <$> l).
Proof. induction l as [|x l IH]; csimpl; [done|]. by rewrite fmap_app, IH. Qed.

Lemma join_fmap_omap {A B} (f : A → option B) (l : list (list A)) :
  mjoin (omap f <$> l) = omap f (mjoin l).
Proof. induction l as [|x l IH]; csimpl; [done|]. by rewrite omap_app, IH. Qed.

Lemma omap_lookup_seq {A} (l : list A) : ∀ pre,
  omap (λ p, (pre ++ l) !! p) (seq (length pre) (length l)) = l.
Proof.
  induction l as [|x l IH]; intros pre; [done|]. simpl.
  rewrite list_lookup_middle by done. f_equal.
  specialize (IH (pre ++ [x])).
  rewrite <- app_assoc, length_app, Nat.add_1_r in IH. exact IH.
Qed.

Lemma NoDup_fst_agree {A B} (l : list (A * B)) x y1 y2 :
  NoDup (l.*1) → (x, y1) ∈ l → (x, y2) ∈ l → y1 = y2.
Proof.
  induction l as [|[a b] l IH]; simpl; [by intros _ ?%elem_of_nil|].
  intros [Hnot Hnd]%NoDup_cons.
  rewrite !elem_of_cons. intros [?|H1] [?|H2]; simplify_eq; auto.
  - destruct Hnot. apply list_elem_of_fmap. by exists (a, y2).
  - destruct Hnot. apply list_elem_of_fmap. by exists (a, y1).
Qed.

(** Among [m] consecutive ranks from 0, the residues modulo [k] are hit
    evenly, within one. *)
Lemma residue_count k m g :
  (0 < k)%nat → (g < k)%nat →
  length (filter (λ r, r mod k = g) (seq 0 m))
  = (m / k + (if decide (g < m mod k)%nat then 1 else 0))%nat.
Proof.
  intros Hk Hg. induction m as [|m IH].
  - by rewrite Nat.Div0.div_0_l, Nat.Div0.mod_0_l.
  - rewrite seq_S, filter_app, length_app, IH. simpl.
    pose proof (Nat.div_mod_eq m k) as Hm.
    pose proof (Nat.mod_upper_bound m k ltac:(lia)) as Hr.
    destruct (decide (m mod k + 1 = k)%nat) as [Hwrap|Hwrap].
    + assert (S m = (m / k + 1) * k + 0)%nat as HS by nia.
      assert (S m / k = m / k + 1)%nat as ->
        by (symmetry; apply (Nat.div_unique _ _ _ 0); lia).
      assert (S m mod k = 0)%nat as ->
        by (symmetry; apply (Nat.mod_unique _ _ (m / k + 1)); lia).
      rewrite filter_cons, filter_nil. repeat case_decide; simpl; lia.
    + assert (S m / k = m / k)%nat as ->
        by (symmetry; apply (Nat.div_unique _ _ _ (m mod k + 1)); lia).
      assert (S m mod k = m mod k + 1)%nat as ->
        by (symmetry; apply (Nat.mod_unique _ _ (m / k)); lia).
      rewrite filter_cons, filter_nil. repeat case_decide; simpl; lia.
Qed.

Lemma residues_even k m g g' :
  (0 < k)%nat → (g < k)%nat → (g' < k)%nat →
  (length (filter (λ r, r mod k = g) (seq 0 m))
   ≤ length (filter (λ r, r mod k = g') (seq 0 m)) + 1)%nat.
Proof.
  intros Hk Hg Hg'. rewrite !residue_count by done. repeat case_decide; lia.
Qed.

(** The records of class [c] are dealt to the groups in turn, from the rank
    given by the records of the class already seen. *)
Lemma deal_class_count_from k (lab : nat → Cell) c g : ∀ order seen,
  Forall (λ pc, pc.2 = lab pc.1) order →
  length (filter (λ pg, lab pg = c) (filter (λ pg, pg.2 = g) (deal k order seen)).*1)
  = length (filter (λ r, r mod k = g)
              (seq (length (filter (λ c', c' = c) seen))
                   (length (filter (λ pc, pc.2 = c) order)))).
Proof.
  induction order as [|[p c'] order IH]; intros seen Hlab; [done|].
  apply Forall_cons in Hlab as [Hp Hlab]. simpl in Hp. subst c'. simpl.
  rewrite !filter_cons. simpl.
  destruct (decide (lab p = c)) as [Heq|Hne].
  - simpl. rewrite filter_cons, ?Heq. specialize (IH (c :: seen) Hlab).
    rewrite filter_cons, decide_True in IH by done. simpl in IH.
    case_decide; csimpl; rewrite ?filter_cons, ?decide_True by done; simpl;
      by rewrite IH.
  - specialize (IH (lab p :: seen) Hlab).
    rewrite filter_cons, decide_False in IH by done.
    case_decide; csimpl; rewrite ?filter_cons, ?decide_False by done; by rewrite IH.
Qed.

Lemma deal_class_count k (lab : nat → Cell) c g (ps : list nat) :
  Forall (λ pc : nat * Cell, pc.2 = lab pc.1) ((λ p, (p, lab p)) <$> ps) →
  length (filter (λ p, lab p = c)
            (filter (λ pg, pg.2 = g) (deal k ((λ p, (p, lab p)) <$> ps) [])).*1)
  = length (filter (λ r, r mod k = g)
              (seq 0 (length (filter (λ pc : nat * Cell, pc.2 = c)
                                ((λ p, (p, lab p)) <$> ps))))).
Proof. intros Hlab. by rewrite deal_class_count_from. Qed.

Section Split.
Variables (k : nat) (random_state : Z) (df : DataFrame).

Lemma dealt_positions_perm :
  (dealt_positions k random_state df).*1 ≡ₚ seq 0 (len df).
Proof.
  unfold dealt_positions. rewrite deal_fst, <- list_fmap_compose.
  rewrite (list_fmap_ext _ id (shuffled_positions random_state df)) by done.
  rewrite list_fmap_id. apply shuffle_perm.
Qed.

Lemma test_groups_lookup i g :
  test_groups k random_state df !! i = Some g ↔
  (i < k)%nat
  ∧ g = (filter (λ pg, pg.2 = i) (dealt_positions k random_state df)).*1.
Proof.
  unfold test_groups. rewrite list_lookup_fmap, fmap_Some. split.
  - intros (j & [-> ?]%lookup_seq & ->). done.
  - intros [Hi ->]. exists i. split; [|done]. by apply lookup_seq.
Qed.

Lemma test_groups_cover :
  (0 < k)%nat → mjoin (test_groups k random_state df) ≡ₚ seq 0 (len df).
Proof.
  intros Hk. unfold test_groups.
  rewrite (join_fmap_fmap fst
             (λ g, filter (λ pg, pg.2 = g) (dealt_positions k random_state df))).
  rewrite groups_partition by (by apply deal_snd).
  apply dealt_positions_perm.
Qed.

Lemma test_groups_disjoint i j gi gj p :
  test_groups k random_state df !! i = Some gi →
  test_groups k random_state df !! j = Some gj →
  p ∈ gi → p ∈ gj → i = j.
Proof.
  intros [_ ->]%test_groups_lookup [_ ->]%test_groups_lookup.
  intros ([p1 g1] & ? & [? ?]%list_elem_of_filter)%list_elem_of_fmap.
  intros ([p2 g2] & ? & [? ?]%list_elem_of_filter)%list_elem_of_fmap.
  simplify_eq/=. eapply NoDup_fst_agree; [|done..].
  rewrite dealt_positions_perm. apply NoDup_seq.
Qed.

(** Every class is spread over the groups evenly, within one record: this is
    how each group keeps the class ratio of the whole frame. *)
Lemma test_groups_stratified c i j gi gj :
  test_groups k random_state df !! i = Some gi →
  test_groups k random_state df !! j = Some gj →
  (class_in_group df c gi ≤ class_in_group df c gj + 1)%nat.
Proof.
  intros [Hi ->]%test_groups_lookup [Hj ->]%test_groups_lookup.
  unfold class_in_group, dealt_positions.
  rewrite !(deal_class_count k (label_at df) c) by (by apply Forall_fmap, Forall_true).
  apply residues_even; lia.
Qed.

(** C4: for [k] at least 1 the split yields exactly [k] folds; fold [i]
    holds out group [i] as its test part and trains on the other groups; the
    test groups together are the positions of the frame, each once, so they
    are pairwise disjoint and every record is in the test part of one fold;
    and the folds depend on the seed and the frame only, not on the world the
    split is called in. *)
Theorem stratified_split_partitions :
  (0 < k)%nat →
  let folds := stratified_k_fold_split_model k random_state df in
  let groups := test_groups k random_state df in
  length folds = k
  ∧ (∀ i X_train X_test y_train y_test,
       folds !! i = Some (X_train, X_test, y_train, y_test) →
       ∃ g, groups !! i = Some g
         ∧ X_test = take_rows df g
         ∧ X_train = take_rows df (mjoin (take i groups ++ drop (S i) groups))
         ∧ y_test = label_series X_test ∧ y_train = label_series X_train)
  ∧ mjoin groups ≡ₚ seq 0 (len df)
  ∧ NoDup (mjoin groups)
  ∧ (∀ i j gi gj p,
       groups !! i = Some gi → groups !! j = Some gj → p ∈ gi → p ∈ gj → i = j)
  ∧ mjoin ((λ fold, rows fold.1.1.2) <$> folds) ≡ₚ rows df
  ∧ (∀ st st',
       (stratified_k_fold_split_ext k random_state df st).2
       = (stratified_k_fold_split_ext k random_state df st').2
       ∧ (stratified_k_fold_split_ext k random_state df st).1 = st).
Proof.
  intros Hk folds groups. subst folds groups.
  split_and!.
  - unfold stratified_k_fold_split_model, test_groups.
    by rewrite length_imap, length_fmap, length_seq.
  - intros i X_train X_test y_train y_test.
    unfold stratified_k_fold_split_model. rewrite list_lookup_imap.
    destruct (test_groups k random_state df !! i) as [g|]; [|done].
    intros [= <- <- <- <-]. by exists g.
  - by apply test_groups_cover.
  - rewrite test_groups_cover by done. apply NoDup_seq.
  - apply test_groups_disjoint.
  - unfold stratified_k_fold_split_model.
    rewrite fmap_imap.
    rewrite (imap_ext _ (const (omap (λ p, rows df !! p)))) by done.
    rewrite imap_const.
    rewrite join_fmap_omap.
    rewrite test_groups_cover by done.
    apply Permutation_of_eq, (omap_lookup_seq (rows df) []).
  - done.
Qed.

End Split.

(** *** Merge and verification *)











Section Integration.
Context {W : Type} (env : Env W).




End Integration.



(** A second run of [main] on the disk the first run leaves finds the
    artifacts of both folds: it returns as the first and does no further
    embedding or oversampling work. *)
Example second_run_reuses_cache :
  let env := toy_env toy_load_config toy_training in
  let first := main env empty_store in
  let second := main env (world first) in
  work (world first)
    = [EmbeddingExtraction 1; Oversampling 1; EmbeddingExtraction 2; Oversampling 2]
  ∧ work (world second) = work (world first)
  ∧ events second = events first
  ∧ result second = Ok tt.
Proof. vm_compute. by split_and!. Qed.

(** On the small world, with two folds. *)
Lemma stratified_split_partitions_witness :
  (0 < 2)%nat
  ∧ length (stratified_k_fold_split_model 2 42 toy_processed_ceas) = 2%nat
  ∧ mjoin (test_groups 2 42 toy_processed_ceas) ≡ₚ seq 0 (len toy_processed_ceas).
Proof.
  assert (0 < 2)%nat as H by lia.
  destruct (stratified_split_partitions 2 42 toy_processed_ceas H)
    as (Hlen & _ & Hcover & _).
  split_and!; [exact H | exact Hlen | exact Hcover].
Defined.

Example series_map_ex :
  fmap (series_map label_scheme) [Some (VInt 1); Some (VInt 0); Some (VInt 2); None; Some (VStr "1")]
  = [Some (VInt 0); Some (VInt 1); None; None; None].
Proof. reflexivity. Qed.

(* ===================================================================== *)
(** ** Further properties of [main.py] and [flask_app.py] *)
(* ===================================================================== *)

(** *** The loop over the folds, when it completes *)

Section CompletedLoop.
Context {W : Type} (env : Env W).

Lemma plot_learning_curves_returns curves : ∀ w,
  match result (plot_learning_curves env curves w) with
  | Ok _ => events (plot_learning_curves env curves w)
            = plot_events (curve_fold <$> curves)
  | Raise _ => True
  end.
Proof.
  induction curves as [|[[[X y] m] i] rest IH]; intros w; [done|].
  simpl. rewrite bind_run. unfold call.
  destruct (plot_learning_curve env m X y i w) as [w' [[]|e]]; simpl; [|done].
  specialize (IH w'). destruct (result (plot_learning_curves env rest w')); [|done].
  simpl. by rewrite IH.
Qed.

(** What one pass through the body of the loop has done when it returns. *)
Lemma fold_body_returns config fold_idx fold accs curves w accs' curves' :
  result (fold_body env config fold_idx fold accs curves w) = Ok (accs', curves') →
  ∃ test_accuracy,
    accs' = accs ++ [test_accuracy]
    ∧ curve_fold <$> curves' = (curve_fold <$> curves) ++ [fold_idx]
    ∧ events (fold_body env config fold_idx fold accs curves w)
      = fold_events fold_idx test_accuracy
          ++ plot_events ((curve_fold <$> curves) ++ [fold_idx]).
Proof.
  destruct fold as [[[X_train X_test] y_train] y_test]. intros Hok.
  destruct (BERTFeatureExtractor env w) as [w1 [ex|e]] eqn:H1.
  2: { exfalso. eassert (fold_body env config fold_idx (X_train, X_test, y_train, y_test)
                           accs curves w
                         = mkOut _ _ (Raise _)) as H
         by (unfold fold_body; run_steps).
       rewrite H in Hok. discriminate. }
  destruct (run_pipeline_or_load env fold_idx X_train X_test y_train y_test
              (pipeline ex) "feature_extraction" w1)
    as [w2 [[[[Xb Xc] yb] yt]|e]] eqn:H2.
  2: { exfalso. eassert (fold_body env config fold_idx (X_train, X_test, y_train, y_test)
                           accs curves w
                         = mkOut _ _ (Raise _)) as H
         by (unfold fold_body; run_steps).
       rewrite H in Hok. discriminate. }
  destruct (get_model_path env config fold_idx w2) as [w3 [mp|e]] eqn:H3.
  2: { exfalso. eassert (fold_body env config fold_idx (X_train, X_test, y_train, y_test)
                           accs curves w
                         = mkOut _ _ (Raise _)) as H
         by (unfold fold_body; run_steps).
       rewrite H in Hok. discriminate. }
  destruct (get_params_path env config fold_idx w3) as [w4 [pp|e]] eqn:H4.
  2: { exfalso. eassert (fold_body env config fold_idx (X_train, X_test, y_train, y_test)
                           accs curves w
                         = mkOut _ _ (Raise _)) as H
         by (unfold fold_body; run_steps).
       rewrite H in Hok. discriminate. }
  destruct (model_training env Xb yb Xc yt mp pp w4) as [w5 [[model acc]|e]] eqn:H5.
  2: { exfalso. eassert (fold_body env config fold_idx (X_train, X_test, y_train, y_test)
                           accs curves w
                         = mkOut _ _ (Raise _)) as H
         by (unfold fold_body; run_steps).
       rewrite H in Hok. discriminate. }
  pose proof (plot_learning_curves_returns (curves ++ [(Xb, yb, model, fold_idx)]) w5)
    as Hplot.
  pose proof (out_eta (plot_learning_curves env
                         (curves ++ [(Xb, yb, model, fold_idx)]) w5)) as H6.
  destruct (result (plot_learning_curves env _ w5)) as [[]|e] eqn:Hres.
  2: { exfalso. eassert (fold_body env config fold_idx (X_train, X_test, y_train, y_test)
                           accs curves w
                         = mkOut _ _ (Raise _)) as H
         by (unfold fold_body; run_steps).
       rewrite H in Hok. discriminate. }
  eassert (fold_body env config fold_idx (X_train, X_test, y_train, y_test)
                           accs curves w = mkOut _ _ (Ok _)) as H
    by (unfold fold_body; run_steps).
  rewrite H in Hok |- *. simpl in Hok |- *. injection Hok as <- <-.
  exists acc. rewrite Hplot, fmap_app. split_and!; try done.
  simpl. by rewrite app_nil_r.
Qed.

(** What a loop that returns has done. *)
Lemma fold_loop_returns config folds : ∀ start accs curves w accs' curves',
  result (fold_loop env config start folds accs curves w) = Ok (accs', curves') →
  ∃ new,
    length new = length folds
    ∧ accs' = accs ++ new
    ∧ curve_fold <$> curves' = (curve_fold <$> curves) ++ seq start (length folds)
    ∧ events (fold_loop env config start folds accs curves w)
      = completed_events start (curve_fold <$> curves) new.
Proof.
  induction folds as [|fold rest IH]; intros start accs curves w accs' curves'; simpl.
  - intros [= <- <-]. exists []. by rewrite !app_nil_r.
  - rewrite bind_run.
    destruct (result (fold_body env config start fold accs curves w))
      as [[a1 c1]|e] eqn:Hb; [|done].
    simpl. intros Hrest.
    destruct (fold_body_returns _ _ _ _ _ _ _ _ Hb) as (acc & -> & Hc & Hev).
    destruct (IH _ _ _ _ _ _ Hrest) as (new & Hlen & -> & Hc' & Hev').
    exists (acc :: new). simpl. rewrite Hev, Hev', Hc', Hc, Hlen.
    split_and!; by rewrite <- ?app_assoc.
Qed.

End CompletedLoop.

Lemma appended_app t1 t2 : appended (t1 ++ t2) = appended t1 ++ appended t2.
Proof. apply omap_app. Qed.

Lemma entered_app fn t1 t2 : entered fn (t1 ++ t2) = entered fn t1 ++ entered fn t2.
Proof. apply omap_app. Qed.

Lemma appended_plot_events idxs : appended (plot_events idxs) = [].
Proof. induction idxs as [|i idxs IH]; [done|]. exact IH. Qed.

Lemma appended_completed_events new : ∀ start plotted,
  appended (completed_events start plotted new) = new.
Proof.
  induction new as [|acc new IH]; intros start plotted; [done|].
  cbn [completed_events]. rewrite !appended_app, appended_plot_events, IH.
  reflexivity.
Qed.

Lemma foldless_appended (t : list Event) :
  Forall (λ e, foldless e = true) t → appended t = [].
Proof.
  induction 1 as [|e t He _ IH]; [done|].
  change (e :: t) with ([e] ++ t). rewrite appended_app, IH.
  by destruct e as [| ? [?|] | ? [?|] |].
Qed.

Lemma entered_plot_events idxs :
  entered "plot_learning_curve" (plot_events idxs) = Some <$> idxs.
Proof.
  induction idxs as [|i idxs IH]; [done|].
  change (plot_events (i :: idxs))
    with ([Enter "plot_learning_curve" (Some i); Exit "plot_learning_curve" (Some i)]
            ++ plot_events idxs).
  rewrite entered_app, IH. reflexivity.
Qed.

Lemma entered_plot_events_other fn idxs :
  fn ≠ "plot_learning_curve" → entered fn (plot_events idxs) = [].
Proof.
  intros Hfn. induction idxs as [|i idxs IH]; [done|].
  change (plot_events (i :: idxs))
    with ([Enter "plot_learning_curve" (Some i); Exit "plot_learning_curve" (Some i)]
            ++ plot_events idxs).
  rewrite entered_app, IH. unfold entered. simpl. by rewrite decide_False.
Qed.

Lemma entered_fold_events fn fold_idx test_accuracy :
  fn ∈ fold_collaborators →
  entered fn (fold_events fold_idx test_accuracy) = [Some fold_idx].
Proof.
  unfold fold_collaborators. rewrite !elem_of_cons, elem_of_nil.
  intros [->|[->|[->|[->|[->|[]]]]]]; reflexivity.
Qed.

Lemma replotted_S start plotted n :
  replotted start plotted (S n)
  = (plotted ++ [start]) ++ replotted (S start) (plotted ++ [start]) n.
Proof.
  unfold replotted. rewrite <- cons_seq, <- fmap_S_seq. simpl.
  f_equal. rewrite list_fmap_bind. apply list_bind_ext; [|done].
  intros k. simpl. by rewrite <- app_assoc.
Qed.

Lemma length_replotted start plotted n :
  2 * length (replotted start plotted n) = 2 * n * length plotted + n * (n + 1).
Proof.
  revert start plotted. induction n as [|n IH]; intros start plotted; [done|].
  rewrite replotted_S, !length_app. specialize (IH (S start) (plotted ++ [start])).
  rewrite length_app in IH. simpl in *. nia.
Qed.

Lemma entered_completed_events_plots new : ∀ start plotted,
  entered "plot_learning_curve" (completed_events start plotted new)
  = Some <$> replotted start plotted (length new).
Proof.
  induction new as [|acc new IH]; intros start plotted; [done|].
  cbn [completed_events length]. rewrite replotted_S, fmap_app.
  rewrite !entered_app, entered_plot_events, IH. reflexivity.
Qed.

Lemma entered_completed_events fn new : 
  fn ∈ fold_collaborators → ∀ start plotted,
  entered fn (completed_events start plotted new) = Some <$> seq start (length new).
Proof.
  intros Hfn. induction new as [|acc new IH]; intros start plotted; [done|].
  cbn [completed_events length]. 
  rewrite !entered_app, entered_fold_events, entered_plot_events_other, IH; [done| |done].
  intros ->. revert Hfn. unfold fold_collaborators.
  rewrite !elem_of_cons, elem_of_nil. naive_solver.
Qed.

Section CompletedRuns.
Context {W : Type} (env : Env W).

(** When the loop over the folds returns, the accuracies it hands to the
    overall mean are the ones it was given followed by the accuracies
    appended during the loop, in order, one for every fold; and one learning
    curve entry has been collected for every fold, in fold order. *)
Theorem one_accuracy_and_one_curve_per_fold
    config folds start accs curves w accs' curves' :
  result (fold_loop env config start folds accs curves w) = Ok (accs', curves') →
  accs' = accs ++ appended (events (fold_loop env config start folds accs curves w))
  ∧ length accs' = length accs + length folds
  ∧ curve_fold <$> curves' = (curve_fold <$> curves) ++ seq start (length folds).
Proof.
  intros (new & Hlen & -> & Hc & ->)%fold_loop_returns.
  rewrite appended_completed_events, length_app, Hlen. done.
Qed.

(** The plotting loop is inside the loop over the folds: in every fold the
    learning curve of every fold processed so far is plotted again, so a
    loop over [n] folds that starts with no entry plots
    [1 + 2 + ... + n] curves. *)
Theorem learning_curves_replotted_every_fold
    config folds start accs curves w accs' curves' :
  result (fold_loop env config start folds accs curves w) = Ok (accs', curves') →
  entered "plot_learning_curve"
    (events (fold_loop env config start folds accs curves w))
  = Some <$> replotted start (curve_fold <$> curves) (length folds)
  ∧ 2 * length (entered "plot_learning_curve"
                  (events (fold_loop env config start folds accs curves w)))
    = 2 * length folds * length curves + length folds * (length folds + 1).
Proof.
  intros (new & Hlen & _ & _ & ->)%fold_loop_returns.
  rewrite entered_completed_events_plots, Hlen. split; [done|].
  by rewrite length_fmap, length_replotted, length_fmap.
Qed.

(** When the loop returns, each of the feature extractor, the feature
    extraction or load, the two path look-ups and the training has been
    called once for every fold, in fold order: a new extractor is built for
    every fold, whether the features of the fold are computed or loaded. *)
Theorem fold_collaborators_called_once_per_fold
    config folds start accs curves w accs' curves' fn :
  result (fold_loop env config start folds accs curves w) = Ok (accs', curves') →
  fn ∈ fold_collaborators →
  entered fn (events (fold_loop env config start folds accs curves w))
  = Some <$> seq start (length folds).
Proof.
  intros (new & Hlen & _ & _ & ->)%fold_loop_returns Hfn.
  by rewrite entered_completed_events, Hlen.
Qed.

(** The overall accuracy that a run of [main] logs is the mean of exactly
    the accuracies appended during that run, it is the last record of the
    run, and [main] then returns. *)
Theorem overall_accuracy_is_mean_of_appended (w : W) :
  Exists (λ e, overall_accuracy_log e = true) (events (main env w)) →
  last (events (main env w))
  = Some (Log INFO overall_accuracy_message
            [AMean (np_mean (appended (events (main env w))))])
  ∧ result (main env w) = Ok tt.
Proof.
  intros Hex. pose proof (main_run env w) as Hrun. cbv zeta in Hrun.
  pose proof (load_inputs_foldless env w) as H0.
  destruct (result (load_inputs env w)) as [[[[config fp] dc] ds]|e].
  - pose proof (before_loop_foldless env fp dc ds (world (load_inputs env w))) as H1.
    destruct (result (before_loop env fp dc ds _)) as [folds|e].
    + pose proof (fold_loop_quiet env config folds 1 [] []
                    (world (before_loop env fp dc ds (world (load_inputs env w)))))
        as H2.
      destruct (result (fold_loop env config 1 folds [] [] _))
        as [[accs curves]|e] eqn:Hloop; destruct Hrun as [Hev Hres].
      * destruct (fold_loop_returns _ _ _ _ _ _ _ _ _ Hloop)
          as (new & _ & Hn & _ & Hev2).
        simpl in Hn. subst accs. split; [|done].
        rewrite Hev, !appended_app, (foldless_appended _ H0),
          (foldless_appended _ H1), Hev2, appended_completed_events.
        simpl. rewrite app_nil_r.
        by rewrite !app_assoc, (last_app_cons _ [_]).
      * exfalso. rewrite Hev in Hex. eapply quiet_no_overall; [|exact Hex].
        rewrite !Forall_app. split_and!; eauto using foldless_quiet, handled_quiet.
    + exfalso. destruct Hrun as [Hev _]. rewrite Hev in Hex.
      eapply quiet_no_overall; [|exact Hex].
      rewrite !Forall_app. split_and!; eauto using foldless_quiet, handled_quiet.
  - exfalso. destruct Hrun as [Hev _]. rewrite Hev in Hex.
    eapply quiet_no_overall; [|exact Hex]. eauto using foldless_quiet.
Qed.

(** When the split returns no fold, [main] does not fail: nothing is
    extracted, trained or plotted, the mean of no accuracy (NaN) is logged as
    the overall accuracy, and [main] returns. *)
Theorem no_fold_logs_nan (w : W) config fp dc ds :
  result (load_inputs env w) = Ok (config, fp, dc, ds) →
  result (before_loop env fp dc ds (world (load_inputs env w))) = Ok [] →
  result (main env w) = Ok tt
  ∧ marks (events (main env w)) = []
  ∧ events (main env w)
    = events (load_inputs env w)
        ++ events (before_loop env fp dc ds (world (load_inputs env w)))
        ++ [Log INFO completed_message [];
            Log INFO overall_accuracy_message [AMean None]].
Proof.
  intros Hin Hsplit. pose proof (main_run env w) as Hrun. cbv zeta in Hrun.
  pose proof (load_inputs_foldless env w) as H0.
  pose proof (before_loop_foldless env fp dc ds (world (load_inputs env w))) as H1.
  rewrite Hin, Hsplit in Hrun. simpl in Hrun. destruct Hrun as [Hev Hres].
  split_and!; [done| |done].
  rewrite Hev, !marks_app, (foldless_marks _ H0), (foldless_marks _ H1). done.
Qed.

(** The path of the CEAS_08 dataset is looked up before the [try]: when the
    file paths have no entry for it, the [KeyError] leaves [main]; nothing is
    read or logged and the handler is not run. *)
Theorem missing_dataset_path_escapes_main (w w1 w2 : W) config fp :
  load_config env "config.json" w = (w1, Ok config) →
  get_file_paths env config w1 = (w2, Ok fp) →
  fp !! "ceas_08_dataset" = None →
  main env w
  = mkOut w2
      [Enter "load_config" None; Exit "load_config" None;
       Enter "get_file_paths" None; Exit "get_file_paths" None]
      (Raise (KeyError "ceas_08_dataset")).
Proof.
  intros Hconfig Hpaths Hkey.
  etransitivity; [unfold main, load_inputs; run_steps | reflexivity].
Qed.

(** A SpamAssassin dataset without a [label] column: the [KeyError] of the
    label remapping is raised inside the [try], before any processing; the
    handler logs it and [main] returns, the outside world as the loading left
    it. *)
Theorem missing_label_column_is_handled (w : W) config fp dc ds :
  result (load_inputs env w) = Ok (config, fp, dc, ds) →
  "label" ∉ columns ds →
  main env w
  = mkOut (world (load_inputs env w))
      (events (load_inputs env w)
         ++ [Log INFO "Beginning Data Preprocessing..." [];
             Log ERROR error_message [AExn (KeyError "label")]])
      (Ok tt).
Proof.
  intros Hin Hcol.
  pose proof (out_eta (load_inputs env w)) as H0. rewrite Hin in H0.
  assert (map_column "label" label_scheme ds = Raise (KeyError "label")) as Hmap
    by (unfold map_column; by rewrite decide_False).
  etransitivity;
    [unfold main, try_body, before_loop, data_preprocessing; run_steps | reflexivity].
Qed.

End CompletedRuns.

Lemma one_accuracy_and_one_curve_per_fold_witness :
  ∃ accs' curves',
    result toy_loop = Ok (accs', curves')
    ∧ accs' = [] ++ appended (events toy_loop)
    ∧ length accs' = 0 + length toy_folds
    ∧ curve_fold <$> curves' = [] ++ seq 1 (length toy_folds).
Proof.
  destruct (result toy_loop) as [[accs' curves']|e] eqn:H.
  - exists accs', curves'. split; [reflexivity|].
    exact (one_accuracy_and_one_curve_per_fold
             (toy_env toy_load_config toy_training) ∅ toy_folds 1 [] []
             empty_store accs' curves' H).
  - vm_compute in H. discriminate H.
Defined.

Lemma learning_curves_replotted_every_fold_witness :
  entered "plot_learning_curve" (events toy_loop) = [Some 1; Some 1; Some 2]
  ∧ 2 * length (entered "plot_learning_curve" (events toy_loop)) = 2 * 2 * 0 + 2 * (2 + 1).
Proof.
  destruct (result toy_loop) as [[accs' curves']|e] eqn:H.
  - exact (learning_curves_replotted_every_fold
             (toy_env toy_load_config toy_training) ∅ toy_folds 1 [] []
             empty_store accs' curves' H).
  - vm_compute in H. discriminate H.
Defined.

Lemma fold_collaborators_called_once_per_fold_witness :
  entered "BERTFeatureExtractor" (events toy_loop) = [Some 1; Some 2].
Proof.
  destruct (result toy_loop) as [[accs' curves']|e] eqn:H.
  - apply (fold_collaborators_called_once_per_fold
             (toy_env toy_load_config toy_training) ∅ toy_folds 1 [] []
             empty_store accs' curves' "BERTFeatureExtractor" H).
    by_computation.
  - vm_compute in H. discriminate H.
Defined.

Lemma overall_accuracy_is_mean_of_appended_witness :
  let o := main (toy_env toy_load_config toy_training) empty_store in
  last (events o)
  = Some (Log INFO overall_accuracy_message [AMean (np_mean (appended (events o)))])
  ∧ result o = Ok tt.
Proof.
  apply (overall_accuracy_is_mean_of_appended
           (toy_env toy_load_config toy_training) empty_store).
  vm_compute. repeat first [apply Exists_cons_hd; reflexivity | apply Exists_cons_tl].
Defined.

Lemma no_fold_logs_nan_witness :
  let o := main (small_env toy_file_paths toy_spamassassin (λ _, [])) empty_store in
  result o = Ok tt
  ∧ marks (events o) = []
  ∧ last (events o) = Some (Log INFO overall_accuracy_message [AMean None]).
Proof.
  destruct (no_fold_logs_nan (small_env toy_file_paths toy_spamassassin (λ _, []))
              empty_store {[ "folds" := "2" ]} toy_file_paths toy_ceas
              toy_spamassassin) as (Hres & Hmarks & Hev);
    [reflexivity | vm_compute; reflexivity |].
  split_and!; [exact Hres | exact Hmarks |].
  rewrite Hev, !app_assoc. apply (last_app_cons _ [_]).
Defined.

Lemma missing_dataset_path_escapes_main_witness :
  main (small_env (delete "ceas_08_dataset" toy_file_paths) toy_spamassassin (λ _, []))
       empty_store
  = mkOut empty_store
      [Enter "load_config" None; Exit "load_config" None;
       Enter "get_file_paths" None; Exit "get_file_paths" None]
      (Raise (KeyError "ceas_08_dataset")).
Proof.
  apply (missing_dataset_path_escapes_main
           (small_env (delete "ceas_08_dataset" toy_file_paths) toy_spamassassin
              (λ _, []))
           empty_store empty_store empty_store {[ "folds" := "2" ]}
           (delete "ceas_08_dataset" toy_file_paths));
    [reflexivity | reflexivity | vm_compute; reflexivity].
Defined.

Lemma missing_label_column_is_handled_witness :
  let env := small_env toy_file_paths toy_unlabelled (λ _, []) in
  main env empty_store
  = mkOut (world (load_inputs env empty_store))
      (events (load_inputs env empty_store)
         ++ [Log INFO "Beginning Data Preprocessing..." [];
             Log ERROR error_message [AExn (KeyError "label")]])
      (Ok tt).
Proof.
  apply (missing_label_column_is_handled
           (small_env toy_file_paths toy_unlabelled (λ _, []))
           empty_store {[ "folds" := "2" ]} toy_file_paths toy_ceas toy_unlabelled);
    [reflexivity | by_computation].
Defined.

(** *** The re-attachment of the cleaned headers, when it fails *)

Lemma drop_columns_columns cs df df' :
  drop_columns cs df = Ok df' →
  columns df' = filter (λ c, c ∉ cs) (columns df) ∧ Forall (λ c, c ∈ columns df) cs.
Proof.
  unfold drop_columns. destruct (list_find _ cs) as [[]|] eqn:Hfind; [done|].
  intros [= <-]. split; [done|].
  apply list_find_None in Hfind. eapply Forall_impl; [exact Hfind|].
  intros c Hc. simpl in Hc. by apply dec_stable.
Qed.

Section HeadersFailing.
Context {W : Type} (env : Env W).

(** The row-count error of the header re-attachment is logged exactly when
    the cleaned headers and the processed CEAS_08 frame differ in their number
    of rows.  Then nothing is dropped, merged or saved: the stage logs the
    error and raises [ValueError], the outside world untouched.  With as many
    rows on both sides the stage logs no error however it ends: the second
    row-count check, after the merge, cannot fail. *)
Theorem row_count_error_iff_mismatch fp cleaned processed (w : W) :
  (len cleaned ≠ len processed →
   merge_cleaned_headers env fp cleaned processed w
   = mkOut w
       [Log INFO
          "Beginning merging of Cleaned Headers of CEAS_08 with Processed CEAS_08..." [];
        Log ERROR rows_mismatch []]
       (Raise (ValueError rows_mismatch)))
  ∧ (len cleaned = len processed →
     Forall (λ e, error_log e = false)
            (events (merge_cleaned_headers env fp cleaned processed w))).
Proof.
  split.
  - intros Hlen.
    etransitivity; [unfold merge_cleaned_headers; run_steps | reflexivity].
  - intros Hlen.
    destruct (drop_columns ["sender"; "receiver"] processed) as [p'|e] eqn:Hdrop.
    2: { eassert (merge_cleaned_headers env fp cleaned processed w = mkOut _ _ _)
           as -> by (unfold merge_cleaned_headers; run_steps).
         simpl. by repeat constructor. }
    pose proof (len_drop_columns _ _ _ Hdrop) as Hlen'.
    assert (len (concat_axis1 (reset_index cleaned) (reset_index p')) = len p')
      as Hlen'' by (rewrite len_concat_reset; congruence).
    destruct (rows_with_null "sender" "receiver"
                (concat_axis1 (reset_index cleaned) (reset_index p')))
      as [missing|e] eqn:Hnull.
    2: { eassert (merge_cleaned_headers env fp cleaned processed w = mkOut _ _ _)
           as -> by (unfold merge_cleaned_headers; run_steps).
         simpl. by repeat constructor. }
    destruct (fp !! "merged_cleaned_ceas_headers") as [path|] eqn:Hpath.
    2: { eassert (merge_cleaned_headers env fp cleaned processed w = mkOut _ _ _)
           as -> by (unfold merge_cleaned_headers; run_steps).
         simpl. by repeat constructor. }
    destruct (to_csv env (concat_axis1 (reset_index cleaned) (reset_index p')) path w)
      as [w' [[]|e]] eqn:Hcsv.
    2: { eassert (merge_cleaned_headers env fp cleaned processed w = mkOut _ _ _)
           as -> by (unfold merge_cleaned_headers; run_steps).
         simpl. by repeat constructor. }
    eassert (merge_cleaned_headers env fp cleaned processed w = mkOut _ _ _)
      as -> by (unfold merge_cleaned_headers; run_steps).
    simpl. by repeat constructor.
Qed.

(** The columns of the merged frame are those of the cleaned headers followed
    by those of the processed frame other than [sender] and [receiver], which
    the processed frame must have had and has lost; so the merged frame names
    no column twice when the cleaned headers are the two header columns. *)
Theorem merged_headers_columns fp cleaned processed (w : W) processed' merged :
  result (merge_cleaned_headers env fp cleaned processed w) = Ok (processed', merged) →
  columns merged
  = columns cleaned ++ filter (λ c, c ∉ ["sender"; "receiver"]) (columns processed)
  ∧ columns processed' = filter (λ c, c ∉ ["sender"; "receiver"]) (columns processed)
  ∧ "sender" ∈ columns processed ∧ "receiver" ∈ columns processed
  ∧ (NoDup (columns cleaned) → NoDup (columns processed) →
     columns cleaned ⊆ ["sender"; "receiver"] → NoDup (columns merged)).
Proof.
  intros (_ & Hdrop & -> & _)%merge_cleaned_headers_ok.
  apply drop_columns_columns in Hdrop as [Hcols Hin]. simpl. rewrite Hcols.
  split_and!; [done|done|..].
  - by apply Forall_cons_1 in Hin as [? _].
  - by apply Forall_cons_1 in Hin as [_ [? _]%Forall_cons_1].
  - intros Hc Hp Hsub. apply NoDup_app. split_and!; [done| |by apply NoDup_filter].
    intros c Hin1 [Hin2 _]%list_elem_of_filter. by apply Hin2, Hsub.
Qed.

End HeadersFailing.

Lemma row_count_error_iff_mismatch_witness :
  let env := toy_env toy_load_config toy_training in
  merge_cleaned_headers env toy_file_paths toy_short_headers toy_processed_ceas
    empty_store
  = mkOut empty_store
      [Log INFO
         "Beginning merging of Cleaned Headers of CEAS_08 with Processed CEAS_08..." [];
       Log ERROR rows_mismatch []]
      (Raise (ValueError rows_mismatch))
  ∧ Forall (λ e, error_log e = false)
           (events (merge_cleaned_headers env toy_file_paths toy_cleaned_headers
                      toy_processed_ceas empty_store)).
Proof.
  split.
  - apply (row_count_error_iff_mismatch (toy_env toy_load_config toy_training)
             toy_file_paths toy_short_headers toy_processed_ceas empty_store).
    by_computation.
  - apply (row_count_error_iff_mismatch (toy_env toy_load_config toy_training)
             toy_file_paths toy_cleaned_headers toy_processed_ceas empty_store).
    reflexivity.
Defined.

Lemma merged_headers_columns_witness :
  columns toy_merged_headers
  = ["sender"; "receiver"; "date"; "subject"; "body"; "label"; "urls"; "index"]
  ∧ NoDup (columns toy_merged_headers).
Proof.
  destruct (merged_headers_columns (toy_env toy_load_config toy_training)
              toy_file_paths toy_cleaned_headers toy_processed_ceas empty_store
              toy_dropped_ceas toy_merged_headers)
    as (Hcols & _ & _ & _ & Hnodup); [vm_compute; reflexivity|].
  split; [exact Hcols|].
  apply Hnodup; by_computation.
Defined.

(** *** The label remapping, on the whole column *)

Lemma series_map_label_scheme c :
  (series_map label_scheme c = Some (VInt 0) ↔ c = Some (VInt 1))
  ∧ (series_map label_scheme c = Some (VInt 1) ↔ c = Some (VInt 0))
  ∧ (series_map label_scheme c = None ↔ c ≠ Some (VInt 0) ∧ c ≠ Some (VInt 1)).
Proof.
  destruct c as [[z|s]|]; simpl; repeat case_decide; naive_solver.
Qed.

Lemma length_filter_fmap {A B} (f : A → B) (P : B → Prop) (Q : A → Prop)
    `{!∀ x, Decision (P x)} `{!∀ x, Decision (Q x)} (l : list A) :
  (∀ x, P (f x) ↔ Q x) → length (filter P (f <$> l)) = length (filter Q l).
Proof.
  intros HPQ. induction l as [|x l IH]; [done|].
  rewrite fmap_cons, !filter_cons.
  destruct (decide (P (f x))) as [HP|HP], (decide (Q x)) as [HQ|HQ]; simpl;
    rewrite ?IH; try done; by apply HPQ in HP || apply HPQ in HQ.
Qed.

Lemma label_count_total (df : DataFrame) :
  label_count (Some (VInt 0)) df + label_count (Some (VInt 1)) df
  + length (filter (λ lr, cell lr.2 "label" ≠ Some (VInt 0)
                          ∧ cell lr.2 "label" ≠ Some (VInt 1)) (rows df))
  = len df.
Proof.
  unfold label_count, len. induction (rows df) as [|lr l IH]; [done|].
  rewrite !filter_cons. repeat case_decide; simpl; try lia; naive_solver.
Qed.

(** The remapping swaps the two classes as a whole: after it there are as
    many rows labelled 0 as there were rows labelled 1 and conversely, and
    every other row has a null label; nothing but the label changes: the
    columns, the row labels and every other cell are as before. *)
Theorem label_remap_swaps_classes (df df' : DataFrame) :
  map_column "label" label_scheme df = Ok df' →
  label_count (Some (VInt 0)) df' = label_count (Some (VInt 1)) df
  ∧ label_count (Some (VInt 1)) df' = label_count (Some (VInt 0)) df
  ∧ label_count None df' + label_count (Some (VInt 0)) df
      + label_count (Some (VInt 1)) df = len df
  ∧ columns df' = columns df
  ∧ labels df' = labels df
  ∧ ∀ i l r c, c ≠ "label" → rows df !! i = Some (l, r) →
      ∃ r', rows df' !! i = Some (l, r') ∧ cell r' c = cell r c.
Proof.
  unfold map_column. case_decide; [|done]. intros [= <-].
  unfold label_count; simpl.
  split_and!.
  - apply (length_filter_fmap _ _ (λ lr, cell lr.2 "label" = Some (VInt 1))).
    intros [l r]; simpl. rewrite cell_insert. apply series_map_label_scheme.
  - apply (length_filter_fmap _ _ (λ lr, cell lr.2 "label" = Some (VInt 0))).
    intros [l r]; simpl. rewrite cell_insert. apply series_map_label_scheme.
  - rewrite (length_filter_fmap _ _
               (λ lr, cell lr.2 "label" ≠ Some (VInt 0)
                      ∧ cell lr.2 "label" ≠ Some (VInt 1))).
    + pose proof (label_count_total df) as Htotal. unfold label_count in Htotal. lia.
    + intros [l r]; simpl. rewrite cell_insert. apply series_map_label_scheme.
  - done.
  - unfold labels; simpl. rewrite <- list_fmap_compose. by apply list_fmap_ext.
  - intros i l r c Hc Hi. rewrite list_lookup_fmap, Hi. simpl.
    eexists. split; [done|]. unfold cell. by rewrite lookup_insert_ne.
Qed.

(** The dict of the remapping is its own inverse on the two classes: a frame
    whose labels are all 0 or 1 is given back, as it was, by a second
    remapping. *)
Theorem label_remap_round_trip (df df' : DataFrame) :
  Forall (λ lr, binary_label (cell lr.2 "label") = true) (rows df) →
  map_column "label" label_scheme df = Ok df' →
  map_column "label" label_scheme df' = Ok df.
Proof.
  intros Hbin. unfold map_column. case_decide; [|done]. intros [= <-]. simpl.
  rewrite decide_True by done. f_equal. destruct df as [cols rs]; simpl in *.
  f_equal. clear H. induction Hbin as [|[l r] rs Hr _ IH]; [done|].
  rewrite !fmap_cons, IH. f_equal. simpl in *. f_equal.
  rewrite cell_insert, insert_insert_eq.
  unfold cell in *. destruct (r !! "label") as [[[z|s]|]|] eqn:Hl; try done.
  apply orb_true_iff in Hr as [Hz|Hz]; apply bool_decide_eq_true in Hz; subst z;
    simpl; by apply insert_id.
Qed.

Lemma label_remap_swaps_classes_witness :
  ∃ df', map_column "label" label_scheme toy_labels = Ok df'
    ∧ label_count (Some (VInt 0)) df' = 1
    ∧ label_count (Some (VInt 1)) df' = 1
    ∧ label_count None df' = 1.
Proof.
  destruct (map_column "label" label_scheme toy_labels) as [df'|e] eqn:H.
  - exists df'. split; [reflexivity|].
    destruct (label_remap_swaps_classes toy_labels df' H) as (H0 & H1 & Hn & _).
    split_and!; [exact H0 | exact H1 |].
    change (label_count None df' + 1 + 1 = 3) in Hn. lia.
  - vm_compute in H. discriminate H.
Defined.

Lemma label_remap_round_trip_witness :
  ∃ df', map_column "label" label_scheme toy_spamassassin = Ok df'
    ∧ map_column "label" label_scheme df' = Ok toy_spamassassin.
Proof.
  destruct (map_column "label" label_scheme toy_spamassassin) as [df'|e] eqn:H.
  - exists df'. split; [reflexivity|].
    apply (label_remap_round_trip toy_spamassassin df'); [|exact H].
    by_computation.
  - vm_compute in H. discriminate H.
Defined.

(** *** Straight-line stages *)

Section Scripts.
Context {W : Type}.

Lemma follows_bind {A B} (m : M W A) (k : A → M W B) l1 l2 :
  follows m l1 → (∀ a, follows (k a) l2) → follows (m ≫= k) (l1 ++ l2).
Proof.
  intros Hm Hk w. rewrite bind_run. destruct (Hm w) as [Hok Hpre].
  destruct (result (m w)) as [a|e]; simpl.
  - destruct (Hk a (world (m w))) as [Hok' Hpre'].
    rewrite (Hok eq_refl). split.
    + intros Hr. by rewrite (Hok' Hr).
    + by apply prefix_app.
  - split; [done|]. by apply prefix_app_r.
Qed.

Lemma follows_eq {A} (m : M W A) l l' : follows m l' → l' = l → follows m l.
Proof. by intros ? <-. Qed.

Lemma follows_ret {A} (a : A) : follows (mret a : M W A) [].
Proof. by intros w. Qed.

Lemma follows_emit (e : Event) : follows (emit e : M W unit) [e].
Proof. by intros w. Qed.

Lemma follows_getitem d k : follows (getitem d k : M W string) [].
Proof. intros w. unfold getitem. by destruct (d !! k). Qed.

Lemma follows_call {A} fn fold (f : Ext W A) :
  follows (call fn fold f) [Enter fn fold; Exit fn fold].
Proof.
  intros w. unfold call. destruct (f w) as [w' [a|e]]; [done|].
  split; [done|]. by apply (prefix_app_r [_] [_] [_]).
Qed.

End Scripts.

Ltac follows_all :=
  unfold logging_info, logging_error;
  repeat match goal with
    | |- follows (mret _) _ => eapply follows_ret
    | |- follows (emit _) _ => eapply follows_emit
    | |- follows (call _ _ _) _ => eapply follows_call
    | |- follows (getitem _ _) _ => eapply follows_getitem
    | |- follows (_ ≫= _) _ => eapply follows_bind; [|intro]
    end.

Lemma exited_app fn t1 t2 : exited fn (t1 ++ t2) = exited fn t1 ++ exited fn t2.
Proof. apply omap_app. Qed.

(** An initial part of [l1 ++ x :: l2] that holds [x], not in [l1], holds
    all of [l1] before it. *)
Lemma prefix_reaches {A} (p l1 l2 : list A) x :
  p `prefix_of` l1 ++ x :: l2 → x ∉ l1 → x ∈ p →
  ∃ k, p = l1 ++ x :: k ∧ k `prefix_of` l2.
Proof.
  intros [k' Hk'] Hnot Hin. symmetry in Hk'.
  apply app_eq_inv in Hk' as [(k & -> & Hk)|(k & -> & Hk)].
  - destruct k as [|y k]; simplify_eq/=.
    + rewrite app_nil_r in Hin. done.
    + exists k. split; [done|]. by exists k'.
  - exfalso. apply Hnot. set_solver.
Qed.

Section IntegrationScript.
Context {W : Type} (env : Env W).

Lemma data_integration_follows fp a b c d e' :
  follows (data_integration env fp a b c d e') integration_script.
Proof.
  unfold data_integration. eapply follows_eq; [follows_all | reflexivity].
Qed.

(** The data integration is one straight line: whatever the frames, its
    calls and log records are an initial part of one script, all of it
    exactly when the stage returns.  So the combined frame is saved only
    after the two merged frames and the combined frame itself have been
    verified, each verification having returned. *)
Theorem combined_frame_saved_after_verification fp a b c d e' (w : W) :
  let o := data_integration env fp a b c d e' w in
  events o `prefix_of` integration_script
  ∧ (is_ok (result o) = true → events o = integration_script)
  ∧ (Enter "save_combined_dataframe" None ∈ events o →
     exited "verify_merged_dataframe" (events o) = [None; None]
     ∧ exited "verify_combined_dataframe" (events o) = [None]).
Proof.
  intros o. destruct (data_integration_follows fp a b c d e' w) as [Hok Hpre].
  fold o in Hok, Hpre. split_and!; [done..|].
  intros Hin.
  destruct (prefix_reaches _ integration_script_verified _ _ Hpre) as (k & -> & Hk);
    [|done|].
  { unfold integration_script_verified.
    rewrite !elem_of_cons, elem_of_nil. naive_solver. }
  rewrite !exited_app.
  assert (∀ fn, fn ≠ "save_combined_dataframe" →
            exited fn (Enter "save_combined_dataframe" None :: k) = []) as Hrest.
  { intros fn Hfn. destruct Hk as [k' Hk'].
    destruct k as [|e1 [|e2 [|e3 k]]]; simplify_eq/=; try done;
      unfold exited; simpl; by rewrite decide_False. }
  rewrite !Hrest by done. done.
Qed.

End IntegrationScript.

Lemma combined_frame_saved_after_verification_witness :
  let o := data_integration (toy_env toy_load_config toy_training) toy_file_paths
             toy_processed_spam toy_spam_headers toy_merged_headers
             (toy_headers [] toy_processed_ceas)
             (concat_axis0 toy_processed_spam toy_processed_ceas) empty_store in
  events o = integration_script
  ∧ exited "verify_merged_dataframe" (events o) = [None; None]
  ∧ exited "verify_combined_dataframe" (events o) = [None].
Proof.
  destruct (combined_frame_saved_after_verification
              (toy_env toy_load_config toy_training) toy_file_paths
              toy_processed_spam toy_spam_headers toy_merged_headers
              (toy_headers [] toy_processed_ceas)
              (concat_axis0 toy_processed_spam toy_processed_ceas) empty_store)
    as (_ & Hok & Hsave).
  cbv zeta. split; [apply Hok; vm_compute; reflexivity|].
  apply Hsave. rewrite Hok by (vm_compute; reflexivity).
  unfold integration_script. apply elem_of_app. right.
  apply elem_of_cons. left. reflexivity.
Defined.

Section Cleaning.
Context {W : Type} (env : Env W).

Lemma clean_noise_split_follows fp combined :
  follows (clean_noise_split env fp combined) cleaning_script.
Proof.
  unfold clean_noise_split. eapply follows_eq; [follows_all | reflexivity].
Qed.

(** Body cleaning, noise injection and the split are one straight line as
    well: the frame is split only after the cleaned frame has been verified
    against the combined one and saved, and after the noisy frame has been
    generated from it. *)
Theorem split_follows_cleaning_and_noise fp combined (w : W) :
  let o := clean_noise_split env fp combined w in
  events o `prefix_of` cleaning_script
  ∧ (is_ok (result o) = true → events o = cleaning_script)
  ∧ (Enter "stratified_k_fold_split" None ∈ events o →
     exited "verify_combined_dataframe" (events o) = [None]
     ∧ exited "save_dataframe_to_csv" (events o) = [None]
     ∧ exited "generate_noisy_dataframe" (events o) = [None]).
Proof.
  intros o. destruct (clean_noise_split_follows fp combined w) as [Hok Hpre].
  fold o in Hok, Hpre. split_and!; [done..|].
  intros Hin.
  destruct (prefix_reaches _ cleaning_script_before_split _ _ Hpre) as (k & -> & Hk);
    [|done|].
  { unfold cleaning_script_before_split.
    rewrite !elem_of_cons, elem_of_nil. naive_solver. }
  rewrite !exited_app.
  assert (∀ fn, fn ≠ "stratified_k_fold_split" →
            exited fn (Enter "stratified_k_fold_split" None :: k) = []) as Hrest.
  { intros fn Hfn. destruct Hk as [k' Hk'].
    destruct k as [|e1 [|e2 [|e3 k]]]; simplify_eq/=; try done;
      unfold exited; simpl; by rewrite decide_False. }
  rewrite !Hrest by done. done.
Qed.

End Cleaning.

Lemma split_follows_cleaning_and_noise_witness :
  let o := clean_noise_split (toy_env toy_load_config toy_training) toy_file_paths
             toy_processed_ceas empty_store in
  events o = cleaning_script
  ∧ exited "verify_combined_dataframe" (events o) = [None]
  ∧ exited "save_dataframe_to_csv" (events o) = [None]
  ∧ exited "generate_noisy_dataframe" (events o) = [None].
Proof.
  destruct (split_follows_cleaning_and_noise
              (toy_env toy_load_config toy_training) toy_file_paths
              toy_processed_ceas empty_store)
    as (_ & Hok & Hsplit).
  cbv zeta. split; [apply Hok; vm_compute; reflexivity|].
  apply Hsplit. rewrite Hok by (vm_compute; reflexivity).
  unfold cleaning_script. apply elem_of_app. right.
  apply elem_of_cons. left. reflexivity.
Defined.

(** *** The views of [flask_app.py] *)

Section FlaskViews.
Context {W O R : Type} (flask : Flask W O R).

(** Both task panes evaluate the email first and render afterwards: the
    output of the evaluation, as it is, is the [output] of the template of
    the rule; when the evaluation raises, no template is rendered and the
    exception leaves the view. *)
Theorem taskpane_renders_the_evaluation rule view (w : W) :
  (rule, view) ∈ url_map flask → rule ∈ taskpane_rules →
  match SingleEvaluation_main flask w with
  | (w', Ok output) =>
      match render_template flask (template_of rule) [("output", output)] w' with
      | (w'', Ok response) =>
          view w
          = mkOut w''
              [Enter "SingleEvaluation.main" None; Exit "SingleEvaluation.main" None;
               Enter "render_template" None; Exit "render_template" None]
              (Ok response)
      | (w'', Raise e) =>
          view w
          = mkOut w''
              [Enter "SingleEvaluation.main" None; Exit "SingleEvaluation.main" None;
               Enter "render_template" None]
              (Raise e)
      end
  | (w', Raise e) =>
      view w = mkOut w' [Enter "SingleEvaluation.main" None] (Raise e)
  end.
Proof.
  unfold url_map, taskpane_rules. rewrite !elem_of_cons, !elem_of_nil.
  intros Hview Hrule.
  assert (view = taskpane flask ∧ rule = "/taskpane.html"
          ∨ view = taskpanedev flask ∧ rule = "/taskpanedev.html")
    as [[-> ->]|[-> ->]] by (clear -Hview Hrule; naive_solver);
    destruct (SingleEvaluation_main flask w) as [w' [output|e]] eqn:Hmain;
    try destruct (render_template flask _ [("output", output)] w')
      as [w'' [response|e]] eqn:Hrender;
    (etransitivity; [unfold taskpane, taskpanedev; run_steps | reflexivity]).
Qed.

(** The rules are registered once each; the email is evaluated for the two
    task panes and for no other rule, once per request; and every view
    answers with one template or one file, never both. *)
Theorem only_taskpanes_run_the_evaluation :
  NoDup (url_map flask).*1
  ∧ ∀ rule view (w : W), (rule, view) ∈ url_map flask →
      entered "SingleEvaluation.main" (events (view w))
      = (if decide (rule ∈ taskpane_rules) then [None] else [])
      ∧ (length (entered "render_template" (events (view w)))
         + length (entered "send_file" (events (view w))) ≤ 1)%nat
      ∧ (is_ok (result (view w)) = true →
         entered "render_template" (events (view w))
         = (if decide (rule ∈ page_rules) then [None] else [])
         ∧ entered "send_file" (events (view w))
           = (if decide (rule ∈ page_rules) then [] else [None])).
Proof.
  split; [by_computation|].
  intros rule view w. unfold url_map. rewrite !elem_of_cons, !elem_of_nil.
  intros Hview.
  repeat (destruct Hview as [[= -> ->]|Hview]); [..|done];
    unfold index, taskpane, taskpanedev, commands, icon16, icon32, icon64, icon128,
      iconlogofilled, favicon;
    rewrite ?bind_run; unfold call;
    repeat match goal with
           | |- context [SingleEvaluation_main flask ?w] =>
               destruct (SingleEvaluation_main flask w) as [? [?|?]]; simpl
           | |- context [render_template flask ?n ?c ?w] =>
               destruct (render_template flask n c w) as [? [?|?]]; simpl
           | |- context [send_file flask ?p ?m ?w] =>
               destruct (send_file flask p m w) as [? [?|?]]; simpl
           end;
    (split_and!; [reflexivity | vm_compute; lia | try done; intros _; by split]).
Qed.

(** Every route serves what its rule names.  A file route sends the file of
    the rule under [./static], as an icon for the favicon and as a PNG for the
    others.  A page route renders the template named by the rule: a task pane
    evaluates the email and renders with its output, every other page renders
    with no context and evaluates nothing. *)
Theorem routes_serve_what_they_name rule view :
  (rule, view) ∈ url_map flask →
  if decide (rule ∈ taskpane_rules) then
    view = (output ← call "SingleEvaluation.main" None (SingleEvaluation_main flask);
            call "render_template" None
              (render_template flask (template_of rule) [("output", output)]))
  else if decide (rule ∈ page_rules) then
    view = call "render_template" None (render_template flask (template_of rule) [])
  else
    view = call "send_file" None
             (send_file flask ("./static" +:+ rule) (mimetype_of rule)).
Proof.
  unfold url_map. rewrite !elem_of_cons, !elem_of_nil. intros Hview.
  repeat (destruct Hview as [[= -> ->]|Hview]); [..|done];
    first [ rewrite (decide_True (P := _ ∈ taskpane_rules)) by by_computation;
            reflexivity
          | rewrite (decide_False (P := _ ∈ taskpane_rules)) by by_computation;
            first [ rewrite decide_True by by_computation; reflexivity
                  | rewrite decide_False by by_computation; reflexivity ] ].
Qed.

End FlaskViews.

Lemma taskpane_renders_the_evaluation_witness :
  taskpane toy_flask tt
  = mkOut tt
      [Enter "SingleEvaluation.main" None; Exit "SingleEvaluation.main" None;
       Enter "render_template" None; Exit "render_template" None]
      (Ok "taskpane.htmlSafe")
  ∧ taskpanedev failing_flask tt
    = mkOut tt [Enter "SingleEvaluation.main" None]
        (Raise (ValueError "no email")).
Proof.
  assert (("/taskpane.html", taskpane toy_flask) ∈ url_map toy_flask) as Hpane
    by (unfold url_map; rewrite !elem_of_cons; right; left; reflexivity).
  assert (("/taskpanedev.html", taskpanedev failing_flask) ∈ url_map failing_flask)
    as Hdev
    by (unfold url_map; rewrite !elem_of_cons; right; right; left; reflexivity).
  assert ("/taskpane.html" ∈ taskpane_rules) as Hrule by by_computation.
  assert ("/taskpanedev.html" ∈ taskpane_rules) as Hrule' by by_computation.
  split.
  - exact (taskpane_renders_the_evaluation toy_flask "/taskpane.html"
             (taskpane toy_flask) tt Hpane Hrule).
  - exact (taskpane_renders_the_evaluation failing_flask "/taskpanedev.html"
             (taskpanedev failing_flask) tt Hdev Hrule').
Defined.

Lemma only_taskpanes_run_the_evaluation_witness :
  entered "SingleEvaluation.main" (events (commands toy_flask tt)) = []
  ∧ entered "SingleEvaluation.main" (events (taskpane toy_flask tt)) = [None].
Proof.
  assert (("/commands.html", commands toy_flask) ∈ url_map toy_flask) as Hcommands
    by (unfold url_map; rewrite !elem_of_cons; do 3 right; left; reflexivity).
  assert (("/taskpane.html", taskpane toy_flask) ∈ url_map toy_flask) as Hpane
    by (unfold url_map; rewrite !elem_of_cons; right; left; reflexivity).
  destruct (only_taskpanes_run_the_evaluation toy_flask) as [_ H].
  destruct (H "/commands.html" (commands toy_flask) tt Hcommands) as [Hc _].
  destruct (H "/taskpane.html" (taskpane toy_flask) tt Hpane) as [Hp _].
  split; [exact Hc | exact Hp].
Defined.

Lemma routes_serve_what_they_name_witness :
  icon128 toy_flask
  = call "send_file" None
      (send_file toy_flask "./static/assets/icon-80.png" "image/png")
  ∧ taskpanedev toy_flask
    = (output ← call "SingleEvaluation.main" None (SingleEvaluation_main toy_flask);
       call "render_template" None
         (render_template toy_flask "taskpanedev.html" [("output", output)]))
  ∧ index toy_flask
    = call "render_template" None (render_template toy_flask "index.html" []).
Proof.
  assert (("/assets/icon-80.png", icon128 toy_flask) ∈ url_map toy_flask) as Hicon
    by (unfold url_map; rewrite !elem_of_cons; do 7 right; left; reflexivity).
  assert (("/taskpanedev.html", taskpanedev toy_flask) ∈ url_map toy_flask) as Hdev
    by (unfold url_map; rewrite !elem_of_cons; do 2 right; left; reflexivity).
  assert (("/", index toy_flask) ∈ url_map toy_flask) as Hindex
    by (unfold url_map; rewrite !elem_of_cons; left; reflexivity).
  split_and!.
  - exact (routes_serve_what_they_name toy_flask "/assets/icon-80.png"
             (icon128 toy_flask) Hicon).
  - exact (routes_serve_what_they_name toy_flask "/taskpanedev.html"
             (taskpanedev toy_flask) Hdev).
  - exact (routes_serve_what_they_name toy_flask "/" (index toy_flask) Hindex).
Defined.
